(** * stream.new: the clip range selector (components/video-clipper.tsx),
      the poster-image probe shared with components/video-player.tsx,
      and lib/urlutils.ts.

    The React component is embedded as a state machine: the hook cells
    ([useState], [useRef]) are the fields of a record, every event handler
    is a command that threads that record and appends to a trace of the
    externally visible actions it performs (setter calls, seeks, requests,
    navigation, console output), and one [step] per UI or I/O event runs
    the handler followed by the effects whose dependencies changed. *)

From Stdlib Require Import ZArith QArith Qcanon Qround.
From Stdlib Require Import String Ascii List Bool Lia.
Import ListNotations.

Set Warnings "-register-all".
Local Open Scope string_scope.

(** ** JavaScript values used by the component *)

Module Js.

(** Media times are finite JavaScript numbers.  Every finite double is a
    rational, so a time is a canonical rational ([Qc], with Leibniz
    equality).  [0] and [-0] are identified: the component only uses
    [!==], [||] and [JSON.stringify] on times, which do not tell them
    apart. *)
Definition number := Qc.

Definition of_Z (z : Z) : number := Q2Qc (inject_Z z).

(** The number written [n/d]. *)
Definition time (n : Z) (d : positive) : number := Q2Qc (n # d).

(** [Math.round(x)]: the integer nearest to [x], ties going up, that is
    [floor (x + 1/2)]. *)
Definition Math_round (x : number) : number :=
  of_Z (Qfloor (x + (1 # 2))%Q).

(** [a === b] on [number | null] ([None] is [null]). *)
Definition strict_eq (a b : option number) : bool :=
  match a, b with
  | None, None => true
  | Some x, Some y => Qeq_bool x y
  | _, _ => false
  end.

(** [a !== b]. *)
Definition strict_neq (a b : option number) : bool := negb (strict_eq a b).

(** Truthiness of a number: everything but zero. *)
Definition truthy (x : number) : bool := negb (Qeq_bool x 0).

(** [x || 0] where [x] is [number | null | undefined]. *)
Definition or_zero (x : option number) : number :=
  match x with
  | Some q => if truthy q then q else Q2Qc 0
  | None => Q2Qc 0
  end.

(** Truthiness of a string: everything but the empty string. *)
Definition truthy_string (s : string) : bool :=
  match s with
  | EmptyString => false
  | String _ _ => true
  end.

End Js.

(** ** lib/urlutils.ts *)

Module Urlutils.

(** [process.env.NEXT_PUBLIC_MUX_BYO_DOMAIN || "mux.com"]; an unset
    variable is [None]. *)
Definition deliveryDomain (env : option string) : string :=
  match env with
  | Some d => if Js.truthy_string d then d else "mux.com"
  | None => "mux.com"
  end.

(** The module constant [deliveryDomain] is in scope of both functions;
    neither body mentions it. *)
Definition getStreamBaseUrl (env : option string) : string :=
  let _ := deliveryDomain env in
  "https://stream.staging.mux.com".

Definition getImageBaseUrl (env : option string) : string :=
  let _ := deliveryDomain env in
  "https://image.staging.mux.com".

End Urlutils.

(** ** JSON documents *)

Module Json.

(** A value the component places in a request body. *)
Inductive jsval :=
| VNull
| VNum (x : Js.number)
| VStr (s : string).

Definition of_time (t : option Js.number) : jsval :=
  match t with
  | Some x => VNum x
  | None => VNull
  end.

(** A document decoded by [res.json()].  The component does one thing
    with a number it finds there, print it in a template literal, so a
    number is given by the text [String] yields for it ("42", "0.5",
    "1e+21"); an object keeps its members in document order. *)
Inductive json :=
| JNull
| JBool (b : bool)
| JNum (text : string)
| JStr (s : string)
| JArr (items : list json)
| JObj (members : list (string * json)).

(** Member lookup on a decoded object: of two members with one key
    [JSON.parse] keeps the later. *)
Fixpoint member (k : string) (ms : list (string * json)) : option json :=
  match ms with
  | [] => None
  | (k', v) :: rest =>
      match member k rest with
      | Some v' => Some v'
      | None => if String.eqb k k' then Some v else None
      end
  end.

(** The binding pattern [({ id }) => ...] applied to a decoded document:
    [None] is the [TypeError] raised for [null]; [Some None] binds [id] to
    [undefined] (a missing member, or a property read on a primitive or an
    array). *)
Definition destructure_id (j : json) : option (option json) :=
  match j with
  | JNull => None
  | JObj ms => Some (member "id" ms)
  | JBool _ | JNum _ | JStr _ | JArr _ => Some None
  end.

(** [String(v)], the conversion a template literal applies. *)
Fixpoint toString (j : json) : string :=
  match j with
  | JNull => "null"
  | JBool true => "true"
  | JBool false => "false"
  | JNum text => text
  | JStr s => s
  | JObj _ => "[object Object]"
  | JArr items =>
      (fix join (l : list json) : string :=
         match l with
         | [] => ""
         | x :: rest =>
             let sx := match x with JNull => "" | _ => toString x end in
             match rest with
             | [] => sx
             | _ :: _ => sx ++ "," ++ join rest
             end
         end) items
  end.

(** [`${v}`] where [v] may be [undefined]. *)
Definition template (v : option json) : string :=
  match v with
  | Some j => toString j
  | None => "undefined"
  end.

End Json.

(** ** components/video-clipper.tsx *)

Module VideoClipper.

Import Js Json.
Local Open Scope list_scope.

(** The externally visible actions of the component, in program order. *)
Inductive action :=
| SetIsVertical (b : bool)
| SetErrorMessage (s : string)
| SetIsCreatingClip (b : bool)
| SetStartTime (t : option number)
| SetEndTime (t : option number)
| SetDuration (d : number)
| Render (s e : option number)   (* React commits a render of a state whose markers are [s], [e] *)
| Seek (t : number)              (* [videoRef.current.currentTime = t] *)
| Fetch (url method : string) (body : list (string * jsval))
| RouterPush (pathname : string)
| Reject                         (* the promise returned by [createClip] rejects *)
| OnLoaded
| OnError
| ConsoleError (msg : string)
| ConsoleLog (s e : option number)
| LoggerError (msg : string)
| ProbeImage (src : string)      (* [img.src = poster] *)
| LoadSource (native : bool) (src : string)
| AddListener (target type : string)
| RemoveListener (target type : string)
| HlsDestroy.

Definition trace := list action.

(** What [fetch(...).then(res => res.json())] settles to. *)
Inductive outcome :=
| NetworkError                               (* [fetch] rejects *)
| Response (status : nat) (body : option json).
    (* [fetch] resolves, whatever the status; [None]: the body is not
       JSON and [res.json()] rejects *)

Definition ok (status : nat) : bool :=
  (200 <=? status)%nat && (status <? 300)%nat.

(** How the browser can play HLS. *)
Inductive browser := NativeHls | Mse | Legacy.

Inductive event :=
| ClickSetStart
| ClickSetEnd
| ClickCreate
| Updated (s e : option number)  (* the trimmer's 'updated' event, [evt.detail] *)
| ImageLoad (w h : number)       (* the probe image's 'load' event *)
| LoadedMetadata (d : number)    (* the video's 'loadedmetadata'; [d] is [video.duration] *)
| VideoError
| HlsError (fatal : bool)
| Playback (p : number)          (* the playhead moves to [p] by playback or scrubbing *)
| Settled (r : outcome)          (* the pending request settles *)
| Unmount.

(** The hook cells of one component instance and the DOM it owns. *)
Record State := mkState {
  mounted : bool;
  isVertical : option bool;            (* [useState<boolean | null>()] *)
  errorMessage : string;
  isCreatingClip : bool;
  startTime : option number;
  endTime : option number;
  prevStartTime : option number;       (* [prevStartTime.current] *)
  prevEndTime : option number;
  duration : option number;            (* [undefined] until set *)
  video : option number;               (* [videoRef.current], as its [currentTime] *)
  trimmer : bool;                      (* [mediaRangeRef.current] is attached *)
  errorListener : bool;
  metadataListener : bool;
  hls : bool;                          (* a live [Hls] instance *)
  updatedListeners : nat;              (* 'updated' listeners on the trimmer *)
  pending : nat                        (* requests whose continuation has not run *)
}.

Definition with_isVertical v st :=
  mkState (mounted st) v (errorMessage st) (isCreatingClip st)
    (startTime st) (endTime st) (prevStartTime st) (prevEndTime st)
    (duration st) (video st) (trimmer st) (errorListener st)
    (metadataListener st) (hls st) (updatedListeners st) (pending st).

Definition with_errorMessage v st :=
  mkState (mounted st) (isVertical st) v (isCreatingClip st)
    (startTime st) (endTime st) (prevStartTime st) (prevEndTime st)
    (duration st) (video st) (trimmer st) (errorListener st)
    (metadataListener st) (hls st) (updatedListeners st) (pending st).

Definition with_isCreatingClip v st :=
  mkState (mounted st) (isVertical st) (errorMessage st) v
    (startTime st) (endTime st) (prevStartTime st) (prevEndTime st)
    (duration st) (video st) (trimmer st) (errorListener st)
    (metadataListener st) (hls st) (updatedListeners st) (pending st).

Definition with_startTime v st :=
  mkState (mounted st) (isVertical st) (errorMessage st) (isCreatingClip st)
    v (endTime st) (prevStartTime st) (prevEndTime st)
    (duration st) (video st) (trimmer st) (errorListener st)
    (metadataListener st) (hls st) (updatedListeners st) (pending st).

Definition with_endTime v st :=
  mkState (mounted st) (isVertical st) (errorMessage st) (isCreatingClip st)
    (startTime st) v (prevStartTime st) (prevEndTime st)
    (duration st) (video st) (trimmer st) (errorListener st)
    (metadataListener st) (hls st) (updatedListeners st) (pending st).

Definition with_prevStartTime v st :=
  mkState (mounted st) (isVertical st) (errorMessage st) (isCreatingClip st)
    (startTime st) (endTime st) v (prevEndTime st)
    (duration st) (video st) (trimmer st) (errorListener st)
    (metadataListener st) (hls st) (updatedListeners st) (pending st).

Definition with_prevEndTime v st :=
  mkState (mounted st) (isVertical st) (errorMessage st) (isCreatingClip st)
    (startTime st) (endTime st) (prevStartTime st) v
    (duration st) (video st) (trimmer st) (errorListener st)
    (metadataListener st) (hls st) (updatedListeners st) (pending st).

Definition with_duration v st :=
  mkState (mounted st) (isVertical st) (errorMessage st) (isCreatingClip st)
    (startTime st) (endTime st) (prevStartTime st) (prevEndTime st)
    v (video st) (trimmer st) (errorListener st)
    (metadataListener st) (hls st) (updatedListeners st) (pending st).

Definition with_video v st :=
  mkState (mounted st) (isVertical st) (errorMessage st) (isCreatingClip st)
    (startTime st) (endTime st) (prevStartTime st) (prevEndTime st)
    (duration st) v (trimmer st) (errorListener st)
    (metadataListener st) (hls st) (updatedListeners st) (pending st).

Definition with_updatedListeners v st :=
  mkState (mounted st) (isVertical st) (errorMessage st) (isCreatingClip st)
    (startTime st) (endTime st) (prevStartTime st) (prevEndTime st)
    (duration st) (video st) (trimmer st) (errorListener st)
    (metadataListener st) (hls st) v (pending st).

Definition with_pending v st :=
  mkState (mounted st) (isVertical st) (errorMessage st) (isCreatingClip st)
    (startTime st) (endTime st) (prevStartTime st) (prevEndTime st)
    (duration st) (video st) (trimmer st) (errorListener st)
    (metadataListener st) (hls st) (updatedListeners st) v.

(** *** Commands: a handler threads the state and emits actions *)

Definition Cmd := State -> State * trace.

Definition skip : Cmd := fun st => (st, []).

Definition seq (c1 c2 : Cmd) : Cmd :=
  fun st =>
    let (st1, t1) := c1 st in
    let (st2, t2) := c2 st1 in
    (st2, t1 ++ t2).

Declare Scope cmd_scope.
Delimit Scope cmd_scope with cmd.
Bind Scope cmd_scope with Cmd.
Notation "c1 ;; c2" := (seq c1 c2)
  (at level 61, right associativity) : cmd_scope.
Local Open Scope cmd_scope.

Definition emit (a : action) : Cmd := fun st => (st, [a]).

Definition when (b : State -> bool) (c : Cmd) : Cmd :=
  fun st => if b st then c st else (st, []).

Fixpoint times (n : nat) (c : Cmd) : Cmd :=
  match n with
  | O => skip
  | S k => c ;; times k c
  end.

(** The [useState] setters.  The call is recorded even after unmount,
    when React ignores it: nothing renders the cell any more. *)
Definition setIsVertical (b : bool) : Cmd :=
  fun st => (with_isVertical (Some b) st, [SetIsVertical b]).
Definition setErrorMessage (s : string) : Cmd :=
  fun st => (with_errorMessage s st, [SetErrorMessage s]).
Definition setIsCreatingClip (b : bool) : Cmd :=
  fun st => (with_isCreatingClip b st, [SetIsCreatingClip b]).
Definition setStartTime (t : option number) : Cmd :=
  fun st => (with_startTime t st, [SetStartTime t]).
Definition setEndTime (t : option number) : Cmd :=
  fun st => (with_endTime t st, [SetEndTime t]).
Definition setDuration (d : number) : Cmd :=
  fun st => (with_duration (Some d) st, [SetDuration d]).

(** *** The component, for fixed props *)

Section Component.

Variables (playbackId poster : string).

Definition lt_one (x : number) : bool :=
  match (x ?= 1)%Qc with
  | Lt => true
  | _ => false
  end.

(** [onImageLoad]. *)
Definition onImageLoad (w h : number) : Cmd :=
  if truthy w && truthy h
  then setIsVertical (lt_one (w / h)%Qc) ;; emit OnLoaded
  else emit OnLoaded ;; emit (ConsoleError "Error getting img dimensions").

(** The object given to [JSON.stringify]: the shorthand properties of
    the literal, in order. *)
Definition requestBody (st : State) : list (string * jsval) :=
  [ ("playbackId", VStr playbackId);
    ("startTime", of_time (startTime st));
    ("endTime", of_time (endTime st)) ].

Definition fetch (url method : string) (body : list (string * jsval)) : Cmd :=
  fun st => (with_pending (S (pending st)) st, [Fetch url method body]).

(** [createClip] up to its [await]; the body is built from the markers
    of the render whose closure the button holds. *)
Definition createClip : Cmd :=
  fun st0 =>
    (setErrorMessage "" ;;
     setIsCreatingClip true ;;
     fetch "/api/clips" "POST" (requestBody st0)) st0.

(** The last [.then] callback of [createClip]. *)
Definition thenBlock (id : option json) : Cmd :=
  setIsCreatingClip false ;;
  emit (RouterPush ("/assets/" ++ template id)%string).

(** The [catch] block of [createClip]. *)
Definition catchBlock : Cmd :=
  emit (ConsoleError "Error in createUpload") ;;
  setIsCreatingClip false ;;
  setErrorMessage "Error creating this clip" ;;
  emit Reject.

(** [createClip] after its [await]: the status of a response is never
    read. *)
Definition settle (r : outcome) : Cmd :=
  match r with
  | NetworkError => catchBlock
  | Response _ None => catchBlock
  | Response _ (Some j) =>
      match destructure_id j with
      | None => catchBlock
      | Some id => thenBlock id
      end
  end.

(** [loadedMetadata]. *)
Definition loadedMetadata (d : number) : Cmd :=
  fun st =>
    match video st with
    | Some _ => if truthy d then setDuration d st else (st, [])
    | None => (st, [])
    end.

Definition videoError : Cmd := emit OnError.

(** The 'updated' listener. *)
Definition onUpdated (s e : option number) : Cmd :=
  setStartTime s ;; setEndTime e.

(** The two marker buttons. *)
Definition onClickSetStart : Cmd :=
  fun st => setStartTime (Some (Math_round (or_zero (video st)))) st.

Definition onClickSetEnd : Cmd :=
  fun st => setEndTime (Some (Math_round (or_zero (video st)))) st.

(** **** Effects *)

(** [useEffect(..., [])]: the poster probe. *)
Definition probeEffect : Cmd := emit (ProbeImage poster).

Definition src : string := ("https://stream.mux.com/" ++ playbackId ++ ".m3u8")%string.

(** [useEffect(..., [playbackId, videoRef])]. *)
Definition attachEffect (br : browser) : Cmd :=
  fun st =>
    match video st with
    | None => (st, [])
    | Some _ =>
        let listen := [AddListener "video" "error"; AddListener "video" "loadedmetadata"] in
        let st1 (h : bool) :=
          mkState (mounted st) (isVertical st) (errorMessage st) (isCreatingClip st)
            (startTime st) (endTime st) (prevStartTime st) (prevEndTime st)
            (duration st) (video st) (trimmer st) true true h
            (updatedListeners st) (pending st) in
        match br with
        | NativeHls => (st1 false, listen ++ [LoadSource true src])
        | Mse => (st1 true, listen ++ [LoadSource false src; AddListener "hls" "hlsError"])
        | Legacy =>
            (st1 false,
             listen ++ [ConsoleError "This is an old browser that does not support MSE https://developer.mozilla.org/en-US/docs/Web/API/Media_Source_Extensions_API"])
        end
    end.

(** Its cleanup. *)
Definition attachCleanup : Cmd :=
  fun st =>
    let t1 := match video st with Some _ => [RemoveListener "video" "error"] | None => [] end in
    let t2 := if hls st then [HlsDestroy] else [] in
    (mkState (mounted st) (isVertical st) (errorMessage st) (isCreatingClip st)
       (startTime st) (endTime st) (prevStartTime st) (prevEndTime st)
       (duration st) (video st) (trimmer st)
       (match video st with Some _ => false | None => errorListener st end)
       (metadataListener st) false
       (updatedListeners st) (pending st),
     t1 ++ t2).

(** [videoRef.current.currentTime = t], under [if (videoRef.current)].
    The element is taken to move its playhead to [t] as given. *)
Definition seekTo (t : number) : Cmd :=
  fun st =>
    match video st with
    | Some _ => (with_video (Some t) st, [Seek t])
    | None => (st, [])
    end.

(** [useEffect(..., [startTime, endTime])]. *)
Definition timesEffect : Cmd :=
  when (fun st => strict_neq (startTime st) (prevStartTime st))
    (fun st =>
       (seekTo (or_zero (startTime st)) ;;
        (fun st' => (with_prevStartTime (startTime st) st', []))) st) ;;
  when (fun st => strict_neq (endTime st) (prevEndTime st))
    (fun st =>
       (seekTo (or_zero (endTime st)) ;;
        (fun st' => (with_prevEndTime (endTime st) st', []))) st) ;;
  (fun st => emit (ConsoleLog (startTime st) (endTime st)) st).

(** [useEffect(..., [duration, mediaRangeRef])]: one more listener each
    time it runs; it has no cleanup. *)
Definition listenEffect : Cmd :=
  fun st =>
    if trimmer st
    then (with_updatedListeners (S (updatedListeners st)) st,
          [AddListener "media-trimmer" "updated"])
    else (st, []).

(** **** Rendering *)

(** [Object.is] on a dependency; it agrees with [===] on finite
    numbers and [null]. *)
Definition Object_is : option number -> option number -> bool := strict_eq.

Definition same_hooks (a b : State) : bool :=
  match isVertical a, isVertical b with
  | None, None => true
  | Some x, Some y => Bool.eqb x y
  | _, _ => false
  end
  && String.eqb (errorMessage a) (errorMessage b)
  && Bool.eqb (isCreatingClip a) (isCreatingClip b)
  && Object_is (startTime a) (startTime b)
  && Object_is (endTime a) (endTime b)
  && Object_is (duration a) (duration b).

(** After a handler returns React renders a mounted component whose
    cells changed since the render [before], commits, and runs the
    effects whose dependencies changed.  The setter calls of one handler
    are committed together, in one render after the handler: that is the
    order of React's own event handlers (the three buttons).  For a
    native listener or a promise callback (the trimmer's 'updated', the
    settled request) React 17 commits after each setter call instead;
    the state reached and the seeks, in their order, are the same, but
    setter calls, renders and seeks interleave differently in the
    trace. *)
Definition rerender (before : State) : Cmd :=
  fun st =>
    if mounted st && negb (same_hooks before st)
    then
      (emit (Render (startTime st) (endTime st)) ;;
       when (fun _ => negb (Object_is (startTime before) (startTime st)
                            && Object_is (endTime before) (endTime st)))
         timesEffect ;;
       when (fun _ => negb (Object_is (duration before) (duration st)))
         listenEffect) st
    else (st, []).

(** The state before the first render. *)
Definition initial (hasVideo hasTrimmer : bool) : State :=
  mkState true None "" false None None None None None
    (if hasVideo then Some (Q2Qc 0) else None) hasTrimmer
    false false false 0 0.

(** The first render and the effects, in source order. *)
Definition mount (br : browser) : Cmd :=
  emit (Render None None) ;;
  probeEffect ;;
  attachEffect br ;;
  timesEffect ;;
  listenEffect.

(** Unmounting runs the one cleanup the component has, on the element the
    effect captured, and React detaches the two refs.  The
    'loadedmetadata' and 'updated' listeners, the probe image's [onload]
    and a pending request are left as they are. *)
Definition unmount : Cmd :=
  fun st =>
    let (st1, t) := attachCleanup st in
    (mkState false (isVertical st1) (errorMessage st1) (isCreatingClip st1)
       (startTime st1) (endTime st1) (prevStartTime st1) (prevEndTime st1)
       (duration st1) None false (errorListener st1)
       (metadataListener st1) (hls st1) (updatedListeners st1) (pending st1),
     t).

(** **** One event *)

(** The handler an event reaches.  The buttons and the trimmer exist
    while the component is mounted, and the create button is rendered
    only while [isCreatingClip] is false; the image, video and request
    callbacks stay registered after unmount. *)
Definition handler (ev : event) : Cmd :=
  match ev with
  | ClickSetStart => when mounted onClickSetStart
  | ClickSetEnd => when mounted onClickSetEnd
  | ClickCreate =>
      when (fun st => mounted st && negb (isCreatingClip st)) createClip
  | Updated s e =>
      when mounted (fun st => times (updatedListeners st) (onUpdated s e) st)
  | ImageLoad w h => onImageLoad w h
  | LoadedMetadata d => when metadataListener (loadedMetadata d)
  | VideoError => when errorListener videoError
  | HlsError fatal =>
      when hls
        (if fatal
         then emit (LoggerError "hls.js fatal error") ;; videoError
         else skip)
  | Playback p =>
      fun st =>
        match video st with
        | Some _ => (with_video (Some p) st, [])
        | None => (st, [])
        end
  | Settled r =>
      fun st =>
        match pending st with
        | O => (st, [])
        | S k => settle r (with_pending k st)
        end
  | Unmount => when mounted unmount
  end.

Definition step (ev : event) : Cmd :=
  fun st => (handler ev ;; rerender st) st.

Fixpoint run (evs : list event) : Cmd :=
  match evs with
  | [] => skip
  | ev :: rest => step ev ;; run rest
  end.

(** The size the stylesheet gives the video on wide screens:
    [isVertical ? 'auto' : '1000px'] and [isVertical ? '600px' : 'auto']. *)
Definition layout (st : State) : string * string :=
  match isVertical st with
  | Some true => ("auto", "600px")
  | Some false | None => ("1000px", "auto")
  end.

End Component.

(** *** Predicates on traces *)

Definition is_fetch (a : action) : bool :=
  match a with Fetch _ _ _ => true | _ => false end.

Definition is_push (a : action) : bool :=
  match a with RouterPush _ => true | _ => false end.

Definition is_seek (a : action) : bool :=
  match a with Seek _ => true | _ => false end.

Definition is_load_source (a : action) : bool :=
  match a with LoadSource _ _ => true | _ => false end.

(** The events that reach the component through React itself: the
    [onClick] handlers of its three buttons and its unmounting; and
    playback, which calls nothing.  React commits the setter calls of
    such a handler in one render. *)
Definition react_handled (ev : event) : bool :=
  match ev with
  | ClickSetStart | ClickSetEnd | ClickCreate | Playback _ | Unmount => true
  | _ => false
  end.



(** Every seek of a trace targets a marker of the latest committed
    render, and no marker setter was called between that commit and the
    seek.  [last] is the latest commit not yet followed by a marker
    setter. *)
Fixpoint seeks_follow (last : option (option number * option number))
    (t : trace) : bool :=
  match t with
  | [] => true
  | Render s e :: rest => seeks_follow (Some (s, e)) rest
  | SetStartTime _ :: rest | SetEndTime _ :: rest => seeks_follow None rest
  | Seek v :: rest =>
      match last with
      | Some (s, e) =>
          (Qeq_bool v (or_zero s) || Qeq_bool v (or_zero e))
          && seeks_follow last rest
      | None => false
      end
  | _ :: rest => seeks_follow last rest
  end.

Definition no_seek (t : trace) : bool :=
  forallb (fun a => negb (is_seek a)) t.


(** How a settled request is handled: [None] for the outcomes that reach
    the [catch] block, [Some id] for those that reach the last [then]. *)
Definition resolved (r : outcome) : option (option json) :=
  match r with
  | NetworkError => None
  | Response _ None => None
  | Response _ (Some j) => destructure_id j
  end.

(** The state in which a request made from [st] is pending. *)
Definition creating (st : State) : State :=
  with_pending (S (pending st))
    (with_isCreatingClip true (with_errorMessage "" st)).

(** The value either marker button stores:
    [Math.round(videoRef.current?.currentTime || 0)]. *)
Definition rounded_position (st : State) : number :=
  Math_round (or_zero (video st)).

(** *** Sample states *)

(** A freshly mounted clipper for playback ID "abc". *)
Definition mounted0 : State :=
  fst (mount "abc" "poster.png" Mse (initial true true)).

(** The same with the markers at 5 and 12 seconds. *)
Definition marked_5_12 : State :=
  fst (step "abc" (Updated (Some (time 5 1)) (Some (time 12 1))) mounted0).

(** The same with the playhead at 3.7 seconds. *)
Definition at_3_7 : State :=
  fst (step "abc" (Playback (time 37 10)) mounted0).

(** A server-side failure: status 500 with a JSON error document. *)
Definition http_500 : outcome :=
  Response 500 (Some (JObj [("error", JStr "Error creating clip")])).


(** The hook invariant between events: the two refs hold the markers of
    the last render. *)
Definition synced (st : State) : Prop :=
  prevStartTime st = startTime st /\ prevEndTime st = endTime st.

End VideoClipper.

(** ** components/video-player.tsx: the poster probe *)

Module VideoPlayer.

Import Js.
Local Open Scope list_scope.

Inductive action :=
| SetIsVertical (b : bool)
| SetAspectRatio (w h : number)   (* the string [`${w} / ${h}`] *)
| OnLoaded
| ConsoleError (msg : string).

Record State := mkState {
  isVertical : option bool;
  aspectRatio : option (number * number)   (* [None] is the initial [''] *)
}.

(** [onImageLoad]. *)
Definition onImageLoad (w h : number) (st : State) : State * list action :=
  if truthy w && truthy h
  then (mkState (Some (VideoClipper.lt_one (w / h)%Qc)) (Some (w, h)),
        [SetIsVertical (VideoClipper.lt_one (w / h)%Qc); SetAspectRatio w h; OnLoaded])
  else (st, [OnLoaded; ConsoleError "Error getting img dimensions"]).

Definition layout (st : State) : string * string :=
  match isVertical st with
  | Some true => ("auto", "600px")
  | Some false | None => ("1000px", "auto")
  end.

End VideoPlayer.

(** ** Runs of the clipper: events and invariants *)

Module ClipperRuns.

Import Js Json VideoClipper.
Local Open Scope list_scope.

(** The three events whose handlers write a marker. *)
Definition writes_marker (ev : event) : bool :=
  match ev with
  | ClickSetStart | ClickSetEnd | Updated _ _ => true
  | _ => false
  end.

(** The events after which the playhead or the video ref may differ. *)
Definition touches_video (ev : event) : bool :=
  match ev with
  | ClickSetStart | ClickSetEnd | Updated _ _ | Playback _ | Unmount => true
  | _ => false
  end.

Definition is_click_create (ev : event) : bool :=
  match ev with ClickCreate => true | _ => false end.

Definition is_settled (ev : event) : bool :=
  match ev with Settled _ => true | _ => false end.

Definition is_on_error (a : action) : bool :=
  match a with OnError => true | _ => false end.

Definition is_on_loaded (a : action) : bool :=
  match a with OnLoaded => true | _ => false end.

Definition is_console_error (a : action) : bool :=
  match a with ConsoleError _ => true | _ => false end.


(** The 'error' listener sits on an element: it is only ever added under
    [if (video)]. *)
Definition wired (st : State) : Prop :=
  errorListener st = true -> video st <> None.

(** Nothing is left that could report a playback error. *)
Definition silenced (st : State) : Prop :=
  mounted st = false /\ errorListener st = false /\ hls st = false.

(** Mounted with its listener on an element, or unmounted with nothing
    left to report an error. *)
Definition alive_or_silenced (st : State) : Prop :=
  wired st /\ (mounted st = true \/ silenced st).

(** Where the playhead is after the trimmer reported [(s, e)] to a clipper
    in state [st]: the effect assigns the start marker first and the end
    marker second, each only if it changed. *)
Definition playhead_after_update (st : State) (s e : option number)
    : option number :=
  match video st with
  | None => None
  | Some p =>
      if strict_neq e (endTime st) then Some (or_zero e)
      else if strict_neq s (startTime st) then Some (or_zero s)
      else Some p
  end.

End ClipperRuns.

(** ** The probe image and its events *)

Module PosterProbe.

Import Js.
Local Open Scope list_scope.

(** What the [Image] made by the probe effect can report once its [src]
    is set: it loaded, with the dimensions it has, or it could not be
    loaded. *)
Inductive image_event :=
| Load (w h : number)
| Error.

(** The player cannot be sized from the image: it did not load, or it
    loaded with a zero width or height. *)
Definition unusable (ev : image_event) : bool :=
  match ev with
  | Load w h => negb (truthy w && truthy h)
  | Error => true
  end.

(** The clipper's probe: [img.onload = (evt) => onImageLoad(evt)] and
    [img.src = poster].  No [onerror] is set, so an image that cannot be
    loaded reaches no code of the component. *)
Definition clipperProbe (playbackId : string) (ev : image_event)
    : VideoClipper.Cmd :=
  match ev with
  | Load w h => VideoClipper.step playbackId (VideoClipper.ImageLoad w h)
  | Error => fun st => (st, [])
  end.

(** The player's probe, set up the same way. *)
Definition playerProbe (ev : image_event) (st : VideoPlayer.State)
    : VideoPlayer.State * list VideoPlayer.action :=
  match ev with
  | Load w h => VideoPlayer.onImageLoad w h st
  | Error => (st, [])
  end.

(** The reading of "the failure is logged and the loaded callback is
    still invoked" at one state and one event of the probe image. *)
Definition logged_and_loaded (playbackId : string) (st : VideoClipper.State)
    (ev : image_event) : Prop :=
  existsb ClipperRuns.is_console_error (snd (clipperProbe playbackId ev st)) = true
  /\ existsb ClipperRuns.is_on_loaded (snd (clipperProbe playbackId ev st)) = true.

End PosterProbe.

(** ** The playback page (pages/v/[id]/index.tsx): the component *)

Module PlaybackPage.

Import Js.
Local Open Scope list_scope.

(** *** The component *)

Inductive action :=
| SetIsLoaded (b : bool)
| SetErrorMessage (s : string)
| SetIsCopied (b : bool)
| SetOpenReport (b : bool)
| Copy (text : string)             (* [copy(shareUrl, ...)] *)
| SetTimeout (id : nat)            (* [window.setTimeout(..., 5000)] returned [id] *)
| ClearTimeout (id : nat)
| LoggerError (msg : string).

Inductive event :=
| PlayerLoaded          (* the player calls [onLoaded] *)
| PlayerError           (* the player calls [onError] *)
| ClickCopy             (* click or key press on the copy link *)
| Timeout               (* the oldest pending timeout expires *)
| ClickReport           (* click or key press on "Report abuse" *)
| CloseReport           (* the report form calls [close] *)
| Unmount.

(** The hook cells of the page past its fallback render, and the timeouts
    it has pending with the browser, oldest first (they share one delay,
    so they expire in the order they were set). *)
Record State := mkState {
  mounted : bool;
  isLoaded : bool;
  errorMessage : string;
  isCopied : bool;
  openReport : bool;
  copyTimeoutRef : option nat;     (* [copyTimeoutRef.current]; [None] is [null] *)
  timers : list nat;
  nextTimer : nat                  (* the handle the next [setTimeout] returns *)
}.

Definition Cmd := State -> State * list action.

(** The state after the first render; timer handles are positive. *)
Definition initial : State := mkState true false "" false false None [] 1.

(** [onError]. *)
Definition onError : Cmd :=
  fun st =>
    (mkState (mounted st) false "This video does not exist" (isCopied st)
       (openReport st) (copyTimeoutRef st) (timers st) (nextTimer st),
     [SetErrorMessage "This video does not exist"; SetIsLoaded false;
      LoggerError "Error"]).

(** [onLoaded={() => setIsLoaded(true)}]. *)
Definition onLoaded : Cmd :=
  fun st =>
    (mkState (mounted st) true (errorMessage st) (isCopied st)
       (openReport st) (copyTimeoutRef st) (timers st) (nextTimer st),
     [SetIsLoaded true]).

(** [copyUrl]. *)
Definition copyUrl (shareUrl : string) : Cmd :=
  fun st =>
    let id := nextTimer st in
    (mkState (mounted st) (isLoaded st) (errorMessage st) true
       (openReport st) (Some id) (timers st ++ [id]) (S id),
     [Copy shareUrl; SetIsCopied true; SetTimeout id]).

(** The callback given to [setTimeout]. *)
Definition copyExpired : Cmd :=
  fun st =>
    (mkState (mounted st) (isLoaded st) (errorMessage st) false
       (openReport st) None (timers st) (nextTimer st),
     [SetIsCopied false]).

(** [clearTimeout(id)]. *)
Definition clearTimeout (id : nat) (l : list nat) : list nat :=
  filter (fun x => negb (Nat.eqb x id)) l.

(** The cleanup of the mount effect:
    [if (copyTimeoutRef.current) clearTimeout(copyTimeoutRef.current)]. *)
Definition cleanup : Cmd :=
  fun st =>
    match copyTimeoutRef st with
    | Some id =>
        if Nat.eqb id 0 then (st, [])
        else
          (mkState (mounted st) (isLoaded st) (errorMessage st) (isCopied st)
             (openReport st) (copyTimeoutRef st) (clearTimeout id (timers st))
             (nextTimer st),
           [ClearTimeout id])
    | None => (st, [])
    end.

Definition unmount : Cmd :=
  fun st =>
    let (st1, t) := cleanup st in
    (mkState false (isLoaded st1) (errorMessage st1) (isCopied st1)
       (openReport st1) (copyTimeoutRef st1) (timers st1) (nextTimer st1),
     t).

Definition setOpenReport (b : bool) : Cmd :=
  fun st =>
    (mkState (mounted st) (isLoaded st) (errorMessage st) (isCopied st)
       b (copyTimeoutRef st) (timers st) (nextTimer st),
     [SetOpenReport b]).

(** The handler an event reaches.  The copy and report links are rendered
    while the report form is closed, the form while it is open; a timeout
    that was not cleared expires whether the page is mounted or not. *)
Definition step (shareUrl : string) (ev : event) : Cmd :=
  fun st =>
    match ev with
    | PlayerLoaded => onLoaded st
    | PlayerError => onError st
    | ClickCopy =>
        if mounted st && negb (openReport st) then copyUrl shareUrl st
        else (st, [])
    | Timeout =>
        match timers st with
        | [] => (st, [])
        | _ :: rest =>
            copyExpired
              (mkState (mounted st) (isLoaded st) (errorMessage st) (isCopied st)
                 (openReport st) (copyTimeoutRef st) rest (nextTimer st))
        end
    | ClickReport =>
        if mounted st && negb (openReport st)
        then setOpenReport (negb (openReport st)) st
        else (st, [])
    | CloseReport =>
        if mounted st && openReport st then setOpenReport false st
        else (st, [])
    | Unmount => if mounted st then unmount st else (st, [])
    end.

Fixpoint run (shareUrl : string) (evs : list event) : Cmd :=
  fun st =>
    match evs with
    | [] => (st, [])
    | ev :: rest =>
        let (st1, t1) := step shareUrl ev st in
        let (st2, t2) := run shareUrl rest st1 in
        (st2, t1 ++ t2)
    end.

Definition is_set_copied (a : action) : bool :=
  match a with SetIsCopied _ => true | _ => false end.

Definition is_clear_timeout (a : action) : bool :=
  match a with ClearTimeout _ => true | _ => false end.


(** No copy is made while a timeout of an earlier copy is pending. *)
Fixpoint spaced (shareUrl : string) (evs : list event) (st : State) : bool :=
  match evs with
  | [] => true
  | ev :: rest =>
      match ev with
      | ClickCopy => match timers st with [] => true | _ :: _ => false end
      | _ => true
      end
      && spaced shareUrl rest (fst (step shareUrl ev st))
  end.

(** At most one timeout is pending, and the ref holds its handle. *)
Definition tidy (st : State) : Prop :=
  (1 <= nextTimer st)%nat
  /\ (timers st = []
      \/ exists id, (1 <= id)%nat /\ timers st = [id]
                    /\ copyTimeoutRef st = Some id /\ mounted st = true).

End PlaybackPage.

(** * Properties *)

(** ** Numbers *)

Module JsFacts.

Import Js.

Lemma Qeq_bool_Qc (x y : Qc) : Qeq_bool x y = true <-> x = y.
Proof.
  rewrite Qeq_bool_iff. split.
  - apply Qc_is_canon.
  - intros ->. reflexivity.
Qed.

Lemma strict_eq_iff (a b : option number) : strict_eq a b = true <-> a = b.
Proof.
  destruct a as [x|], b as [y|]; simpl; try (split; congruence).
  rewrite Qeq_bool_Qc. split; congruence.
Qed.

Lemma strict_eq_refl (a : option number) : strict_eq a a = true.
Proof. now apply strict_eq_iff. Qed.

Lemma strict_neq_iff (a b : option number) : strict_neq a b = true <-> a <> b.
Proof.
  unfold strict_neq. rewrite negb_true_iff, <- not_true_iff_false, strict_eq_iff.
  tauto.
Qed.

Lemma strict_neq_refl (a : option number) : strict_neq a a = false.
Proof. unfold strict_neq. now rewrite strict_eq_refl. Qed.

(** On a number [x || 0] is [x]: the only falsy time is zero itself. *)
Lemma or_zero_Some (x : number) : or_zero (Some x) = x.
Proof.
  unfold or_zero, truthy.
  destruct (Qeq_bool x 0) eqn:E; simpl; [|reflexivity].
  symmetry. apply Qc_is_canon. apply Qeq_bool_iff in E. rewrite E. reflexivity.
Qed.

(** [Math.round] leaves an integer alone. *)
Lemma Math_round_of_Z (z : Z) : Math_round (of_Z z) = of_Z z.
Proof.
  unfold Math_round, of_Z. f_equal. f_equal.
  assert (E : (Q2Qc (inject_Z z) + (1 # 2) == inject_Z z + (1 # 2))%Q).
  { apply Qplus_comp; [apply Qred_correct | reflexivity]. }
  rewrite E.
  unfold Qfloor, Qplus, inject_Z; cbn [Qnum Qden].
  replace (z * 2 + 1 * 1)%Z with (1 + z * 2)%Z by lia.
  change (Z.pos (1 * 2)) with 2%Z.
  rewrite Z.div_add by lia. reflexivity.
Qed.

Lemma Math_round_idem (x : number) : Math_round (Math_round x) = Math_round x.
Proof. unfold Math_round at 2 3. apply Math_round_of_Z. Qed.


(** [Math.round x] is within a half of [x]. *)
Lemma Math_round_near (x : number) :
  (inject_Z (Qfloor (x + (1 # 2))) <= x + (1 # 2))%Q
  /\ (x + (1 # 2) < inject_Z (Qfloor (x + (1 # 2)) + 1))%Q.
Proof. split; [apply Qfloor_le | apply Qlt_floor]. Qed.

End JsFacts.

(** ** lib/urlutils.ts *)

Module UrlutilsFacts.

Import Urlutils.

(** C9.  Whatever NEXT_PUBLIC_MUX_BYO_DOMAIN holds (unset, empty or a
    domain), [getStreamBaseUrl()] is "https://stream.staging.mux.com" and
    [getImageBaseUrl()] is "https://image.staging.mux.com": the delivery
    domain read from the environment does not reach either result.  On
    mount the clipper loads its media once, from
    ["https://stream.mux.com/<playbackId>.m3u8"]: as the video's [src]
    where HLS is native, through [hls.loadSource] where MSE is supported
    (on a browser with neither it loads nothing); that address never
    starts with the stream base URL. *)
Theorem base_urls_fixed :
  (forall env : option string,
      getStreamBaseUrl env = "https://stream.staging.mux.com"
      /\ getImageBaseUrl env = "https://image.staging.mux.com")
  /\ (forall playbackId poster br hasTrimmer,
         filter VideoClipper.is_load_source
           (snd (VideoClipper.mount playbackId poster br
                   (VideoClipper.initial true hasTrimmer))) =
         match br with
         | VideoClipper.NativeHls =>
             [VideoClipper.LoadSource true
                ("https://stream.mux.com/" ++ playbackId ++ ".m3u8")]
         | VideoClipper.Mse =>
             [VideoClipper.LoadSource false
                ("https://stream.mux.com/" ++ playbackId ++ ".m3u8")]
         | VideoClipper.Legacy => []
         end)
  /\ (forall playbackId env,
         String.prefix (getStreamBaseUrl env)
           ("https://stream.mux.com/" ++ playbackId ++ ".m3u8") = false).
Proof.
  split; [|split].
  - intros env. split; reflexivity.
  - intros playbackId poster br hasTrimmer.
    destruct br, hasTrimmer; reflexivity.
  - intros playbackId env. reflexivity.
Qed.

End UrlutilsFacts.

(** ** The clipper *)

Module VideoClipperFacts.

Import Js Json JsFacts VideoClipper.
Local Open Scope list_scope.

(** *** Rendering *)

Lemma same_hooks_iff (a b : State) :
  same_hooks a b = true <->
  isVertical a = isVertical b /\ errorMessage a = errorMessage b
  /\ isCreatingClip a = isCreatingClip b /\ startTime a = startTime b
  /\ endTime a = endTime b /\ duration a = duration b.
Proof.
  unfold same_hooks, Object_is.
  rewrite !andb_true_iff, !strict_eq_iff, String.eqb_eq, Bool.eqb_true_iff.
  assert (V : (match isVertical a, isVertical b with
               | None, None => true
               | Some x, Some y => Bool.eqb x y
               | _, _ => false
               end) = true <-> isVertical a = isVertical b).
  { destruct (isVertical a) as [[|]|], (isVertical b) as [[|]|];
      simpl; split; congruence. }
  rewrite V. tauto.
Qed.

Lemma same_hooks_refl (st : State) : same_hooks st st = true.
Proof. apply same_hooks_iff. repeat split. Qed.

Lemma rerender_same (before st : State) :
  same_hooks before st = true -> rerender before st = (st, []).
Proof.
  intros H. unfold rerender. rewrite H, andb_false_r. reflexivity.
Qed.

Lemma rerender_unmounted (before st : State) :
  mounted st = false -> rerender before st = (st, []).
Proof. intros H. unfold rerender. now rewrite H. Qed.

(** A render that changes neither a marker nor the duration runs no
    effect. *)
Lemma rerender_plain (before st : State) :
  mounted st = true ->
  same_hooks before st = false ->
  startTime before = startTime st ->
  endTime before = endTime st ->
  duration before = duration st ->
  rerender before st = (st, [Render (startTime st) (endTime st)]).
Proof.
  intros Hm Hs H1 H2 H3. unfold rerender. rewrite Hm, Hs. simpl.
  unfold seq, emit, when, Object_is.
  rewrite H1, H2, H3, !strict_eq_refl. reflexivity.
Qed.

(** *** Creating a clip *)

Lemma settle_resolved (r : outcome) :
  settle r = match resolved r with
             | None => catchBlock
             | Some id => thenBlock id
             end.
Proof. destruct r as [|status [j|]]; reflexivity. Qed.

Section Create.

Variables (playbackId poster : string).

Lemma click_create (st : State) :
  mounted st = true ->
  isCreatingClip st = false ->
  step playbackId ClickCreate st =
  (creating st,
   [ SetErrorMessage ""; SetIsCreatingClip true;
     Fetch "/api/clips" "POST"
       [ ("playbackId", VStr playbackId);
         ("startTime", of_time (startTime st));
         ("endTime", of_time (endTime st)) ];
     Render (startTime st) (endTime st) ]).
Proof.
  intros Hm Hc.
  unfold step, seq, handler, when. rewrite Hm, Hc. simpl.
  rewrite rerender_plain; try reflexivity; try assumption.
  apply not_true_iff_false. intros H. apply same_hooks_iff in H.
  simpl in H. intuition congruence.
Qed.

(** While the request is pending the button is not rendered: a second
    click has nothing to reach. *)
Lemma click_create_disabled (st : State) :
  isCreatingClip st = true ->
  step playbackId ClickCreate st = (st, []).
Proof.
  intros Hc. unfold step, seq, handler, when.
  rewrite Hc, andb_false_r. rewrite rerender_same by apply same_hooks_refl.
  reflexivity.
Qed.

(** A settled request whose document binds [id] reaches the last
    [then]: the component leaves the creating state and navigates. *)
Lemma settled_then (st : State) (k : nat) (r : outcome) (id : option json) :
  pending st = S k ->
  resolved r = Some id ->
  mounted st = true ->
  isCreatingClip st = true ->
  step playbackId (Settled r) st =
  (with_isCreatingClip false (with_pending k st),
   [ SetIsCreatingClip false;
     RouterPush ("/assets/" ++ template id)%string;
     Render (startTime st) (endTime st) ]).
Proof.
  intros Hp Hr Hm Hc.
  unfold step, seq, handler. rewrite Hp, settle_resolved, Hr. simpl.
  rewrite rerender_plain; try reflexivity; try assumption.
  apply not_true_iff_false. intros H. apply same_hooks_iff in H.
  simpl in H. intuition congruence.
Qed.

(** Every other outcome reaches the [catch] block: the error is logged
    and shown, the create button comes back, nothing navigates and
    nothing is requested again. *)
Lemma settled_catch (st : State) (k : nat) (r : outcome) :
  pending st = S k ->
  resolved r = None ->
  mounted st = true ->
  isCreatingClip st = true ->
  step playbackId (Settled r) st =
  (with_errorMessage "Error creating this clip"
     (with_isCreatingClip false (with_pending k st)),
   [ ConsoleError "Error in createUpload";
     SetIsCreatingClip false;
     SetErrorMessage "Error creating this clip";
     Reject;
     Render (startTime st) (endTime st) ]).
Proof.
  intros Hp Hr Hm Hc.
  unfold step, seq, handler. rewrite Hp, settle_resolved, Hr. simpl.
  rewrite rerender_plain; try reflexivity; try assumption.
  apply not_true_iff_false. intros H. apply same_hooks_iff in H.
  simpl in H. intuition congruence.
Qed.


(** C1.  Whatever playback ID and markers the component holds, a click
    on "create clip" issues one request, a POST to /api/clips whose
    body has the three members playbackId, startTime and endTime with
    the values held and no other; a further click while it is pending
    does nothing; and when the request settles with a document whose
    [id] is the string [i] (whatever the status), the only navigation
    is to /assets/i and no error message is set. *)
Theorem create_posts_markers_then_navigates (st : State) :
  mounted st = true ->
  isCreatingClip st = false ->
  let (st1, t1) := step playbackId ClickCreate st in
  filter is_fetch t1 =
    [ Fetch "/api/clips" "POST"
        [ ("playbackId", VStr playbackId);
          ("startTime", of_time (startTime st));
          ("endTime", of_time (endTime st)) ] ]
  /\ step playbackId ClickCreate st1 = (st1, [])
  /\ forall status ms i,
       member "id" ms = Some (JStr i) ->
       let (st2, t2) :=
         step playbackId (Settled (Response status (Some (JObj ms)))) st1 in
       filter is_push t2 = [RouterPush ("/assets/" ++ i)%string]
       /\ filter is_fetch t2 = []
       /\ errorMessage st2 = ""%string
       /\ isCreatingClip st2 = false.
Proof.
  intros Hm Hc. rewrite click_create by assumption.
  split; [reflexivity|]. split.
  - apply click_create_disabled. reflexivity.
  - intros status ms i Hid.
    rewrite (settled_then (creating st) (pending st)
               (Response status (Some (JObj ms))) (Some (JStr i)));
      try reflexivity; try assumption.
    + simpl. repeat split; reflexivity.
    + simpl. now rewrite Hid.
Qed.

(** What holds of failure handling: a request that fails on the
    network, answers with a body that is not JSON, or answers [null],
    ends with the inline message, without navigation or a new request,
    and with the create button back. *)
Lemma create_failure_caught (st : State) (r : outcome) :
  mounted st = true ->
  isCreatingClip st = false ->
  resolved r = None ->
  let st1 := fst (step playbackId ClickCreate st) in
  let (st2, t2) := step playbackId (Settled r) st1 in
  errorMessage st2 = "Error creating this clip"%string
  /\ filter is_push t2 = []
  /\ filter is_fetch t2 = []
  /\ isCreatingClip st2 = false
  /\ mounted st2 = true.
Proof.
  intros Hm Hc Hr. rewrite click_create by assumption. simpl.
  rewrite (settled_catch (creating st) (pending st) r);
    try reflexivity; try assumption.
  simpl. repeat split; try reflexivity. exact Hm.
Qed.

End Create.

(** The playback ID "abc" with markers 5 and 12 and the answer
    [{id: "xyz"}]. *)
Lemma create_posts_markers_then_navigates_witness :
  mounted marked_5_12 = true
  /\ isCreatingClip marked_5_12 = false
  /\ fst (step "abc" ClickCreate marked_5_12) = creating marked_5_12
  /\ filter is_fetch (snd (step "abc" ClickCreate marked_5_12)) =
       [ Fetch "/api/clips" "POST"
           [ ("playbackId", VStr "abc");
             ("startTime", VNum (time 5 1));
             ("endTime", VNum (time 12 1)) ] ]
  /\ filter is_push
       (snd (step "abc"
               (Settled (Response 200 (Some (JObj [("id", JStr "xyz")]))))
               (creating marked_5_12))) =
       [RouterPush "/assets/xyz"].
Proof.
  pose proof (create_posts_markers_then_navigates "abc" marked_5_12
                eq_refl eq_refl) as H.
  rewrite (click_create "abc" marked_5_12 eq_refl eq_refl) in H.
  destruct H as (Hf & _ & Hs).
  specialize (Hs 200%nat [("id", JStr "xyz")] "xyz"%string eq_refl).
  destruct (step "abc" (Settled (Response 200 (Some (JObj [("id", JStr "xyz")]))))
              (creating marked_5_12)) as [st2 t2].
  destruct Hs as (Hp & _).
  rewrite (click_create "abc" marked_5_12 eq_refl eq_refl).
  split; [reflexivity|]. split; [reflexivity|]. split; [reflexivity|].
  split; [exact Hf | exact Hp].
Defined.

(** C2, on the code.  A request answered with status 500 and a JSON error
    document is not treated as a failure: the status is not a success
    one, yet the continuation navigates to /assets/undefined, shows no
    error message and logs nothing. *)
Theorem http_error_navigates :
  ok 500 = false
  /\ step "abc" (Settled http_500) (fst (step "abc" ClickCreate mounted0)) =
     (with_isCreatingClip false (with_errorMessage "" mounted0),
      [ SetIsCreatingClip false;
        RouterPush "/assets/undefined";
        Render None None ])
  /\ errorMessage
       (fst (step "abc" (Settled http_500)
               (fst (step "abc" ClickCreate mounted0)))) = ""%string.
Proof. repeat split. Qed.

(** *** Unmounting *)

Section Unmount.

Variable playbackId : string.

Lemma unmount_trace (st : State) :
  snd (unmount st) =
  (match video st with Some _ => [RemoveListener "video" "error"] | None => [] end)
  ++ (if hls st then [HlsDestroy] else []).
Proof. reflexivity. Qed.



End Unmount.



(** *** The marker buttons *)

(** Rendering and its effects never touch a hook cell, the mount flag or
    the presence of the video element. *)
Lemma rerender_keeps (before st : State) :
  let st' := fst (rerender before st) in
  startTime st' = startTime st /\ endTime st' = endTime st
  /\ errorMessage st' = errorMessage st
  /\ isCreatingClip st' = isCreatingClip st
  /\ isVertical st' = isVertical st
  /\ mounted st' = mounted st
  /\ (video st = None <-> video st' = None).
Proof.
  unfold rerender, seq, emit, when, timesEffect, listenEffect, seekTo, seq, when.
  destruct (mounted st && negb (same_hooks before st)); simpl;
    [|repeat split; auto].
  destruct (negb (Object_is (startTime before) (startTime st)
                  && Object_is (endTime before) (endTime st))); simpl;
    [destruct (strict_neq (startTime st) (prevStartTime st)); simpl;
     destruct (video st) eqn:Ev; simpl;
     [ destruct (strict_neq (endTime st) (prevEndTime st)); simpl
     | rewrite ?Ev; destruct (strict_neq (endTime st) (prevEndTime st)); simpl; rewrite ?Ev
     | destruct (strict_neq (endTime st) (prevEndTime st)); simpl; rewrite ?Ev
     | destruct (strict_neq (endTime st) (prevEndTime st)); simpl; rewrite ?Ev ]|];
    destruct (negb (Object_is (duration before) (duration st))); simpl;
    destruct (trimmer st); simpl; rewrite ?Ev;
    repeat split; auto; try discriminate; try congruence.
Qed.

(** Writing a cell the value it holds gives the same state. *)
Lemma with_startTime_same (st : State) (v : option number) :
  startTime st = v -> with_startTime v st = st.
Proof. destruct st; simpl. intros <-. reflexivity. Qed.

Lemma with_endTime_same (st : State) (v : option number) :
  endTime st = v -> with_endTime v st = st.
Proof. destruct st; simpl. intros <-. reflexivity. Qed.

Section Markers.

Variable playbackId : string.

Lemma click_set_start_changed (st : State) :
  mounted st = true ->
  synced st ->
  startTime st <> Some (rounded_position st) ->
  let r := rounded_position st in
  step playbackId ClickSetStart st =
  (with_prevStartTime (Some r)
     (match video st with
      | Some _ => with_video (Some r) (with_startTime (Some r) st)
      | None => with_startTime (Some r) st
      end),
   [SetStartTime (Some r); Render (Some r) (endTime st)]
   ++ (match video st with Some _ => [Seek r] | None => [] end)
   ++ [ConsoleLog (Some r) (endTime st)]).
Proof.
  intros Hm [Hs He] Hne r.
  unfold step, seq, handler, when. rewrite Hm.
  unfold onClickSetStart, setStartTime. fold (rounded_position st). fold r.
  unfold rerender. cbn [mounted with_startTime]. rewrite Hm.
  assert (E : same_hooks st (with_startTime (Some r) st) = false).
  { apply not_true_iff_false. intros H. apply same_hooks_iff in H.
    simpl in H. intuition. }
  rewrite E. cbn [andb negb].
  unfold seq, emit, when, Object_is.
  cbn [startTime endTime duration with_startTime].
  assert (E1 : strict_eq (startTime st) (Some r) = false).
  { apply not_true_iff_false. rewrite strict_eq_iff. exact Hne. }
  rewrite E1, !strict_eq_refl. cbn [andb negb].
  unfold timesEffect, seq, when. cbn [startTime prevStartTime with_startTime].
  assert (E2 : strict_neq (Some r) (prevStartTime st) = true).
  { apply strict_neq_iff. rewrite Hs. intros H. apply Hne. symmetry. exact H. }
  rewrite E2. unfold seekTo. cbn [video with_startTime]. rewrite or_zero_Some.
  destruct (video st) as [p|] eqn:Ev;
    cbn [endTime prevEndTime with_prevStartTime with_video with_startTime startTime];
    rewrite He, strict_neq_refl; reflexivity.
Qed.

Lemma click_set_end_changed (st : State) :
  mounted st = true ->
  synced st ->
  endTime st <> Some (rounded_position st) ->
  let r := rounded_position st in
  step playbackId ClickSetEnd st =
  (with_prevEndTime (Some r)
     (match video st with
      | Some _ => with_video (Some r) (with_endTime (Some r) st)
      | None => with_endTime (Some r) st
      end),
   [SetEndTime (Some r); Render (startTime st) (Some r)]
   ++ (match video st with Some _ => [Seek r] | None => [] end)
   ++ [ConsoleLog (startTime st) (Some r)]).
Proof.
  intros Hm [Hs He] Hne r.
  unfold step, seq, handler, when. rewrite Hm.
  unfold onClickSetEnd, setEndTime. fold (rounded_position st). fold r.
  unfold rerender. cbn [mounted with_endTime]. rewrite Hm.
  assert (E : same_hooks st (with_endTime (Some r) st) = false).
  { apply not_true_iff_false. intros H. apply same_hooks_iff in H.
    simpl in H. intuition. }
  rewrite E. cbn [andb negb].
  unfold seq, emit, when, Object_is.
  cbn [startTime endTime duration with_endTime].
  assert (E1 : strict_eq (endTime st) (Some r) = false).
  { apply not_true_iff_false. rewrite strict_eq_iff. exact Hne. }
  rewrite E1, !strict_eq_refl, andb_false_r. cbn [negb].
  unfold timesEffect, seq, when.
  cbn [startTime prevStartTime endTime prevEndTime with_endTime].
  rewrite Hs, strict_neq_refl.
  assert (E2 : strict_neq (Some r) (prevEndTime st) = true).
  { apply strict_neq_iff. rewrite He. intros H. apply Hne. symmetry. exact H. }
  cbn [endTime prevEndTime with_endTime].
  rewrite E2. unfold seekTo, skip. cbn [video with_endTime]. rewrite or_zero_Some.
  destruct (video st) as [p|] eqn:Ev; reflexivity.
Qed.

(** Storing the value already held changes no cell: nothing renders
    and nothing seeks. *)
Lemma click_set_start_same (st : State) :
  mounted st = true ->
  startTime st = Some (rounded_position st) ->
  step playbackId ClickSetStart st =
  (with_startTime (Some (rounded_position st)) st,
   [SetStartTime (Some (rounded_position st))]).
Proof.
  intros Hm H. unfold step, seq, handler, when. rewrite Hm.
  unfold onClickSetStart, setStartTime. fold (rounded_position st).
  rewrite rerender_same; [reflexivity|].
  apply same_hooks_iff. simpl. intuition.
Qed.

Lemma click_set_end_same (st : State) :
  mounted st = true ->
  endTime st = Some (rounded_position st) ->
  step playbackId ClickSetEnd st =
  (with_endTime (Some (rounded_position st)) st,
   [SetEndTime (Some (rounded_position st))]).
Proof.
  intros Hm H. unfold step, seq, handler, when. rewrite Hm.
  unfold onClickSetEnd, setEndTime. fold (rounded_position st).
  rewrite rerender_same; [reflexivity|].
  apply same_hooks_iff. simpl. intuition.
Qed.

Lemma rounded_position_at (st : State) (p : number) :
  video st = Some p -> rounded_position st = Math_round p.
Proof. intros Hv. unfold rounded_position. now rewrite Hv, or_zero_Some. Qed.

Lemma step_playback (st : State) (p0 p : number) :
  video st = Some p0 ->
  step playbackId (Playback p) st = (with_video (Some p) st, []).
Proof.
  intros Hv. unfold step, seq, handler. rewrite Hv.
  rewrite rerender_same; [reflexivity|].
  apply same_hooks_iff. simpl. intuition.
Qed.

(** What a click on "Set start" leaves in the cells, whatever the
    state. *)
Lemma click_set_start_cells (st : State) :
  mounted st = true ->
  let st' := fst (step playbackId ClickSetStart st) in
  startTime st' = Some (rounded_position st)
  /\ endTime st' = endTime st
  /\ errorMessage st' = errorMessage st
  /\ mounted st' = true
  /\ (video st = None <-> video st' = None).
Proof.
  intros Hm. unfold step, seq, handler, when. rewrite Hm.
  unfold onClickSetStart, setStartTime. fold (rounded_position st).
  pose proof (rerender_keeps st (with_startTime (Some (rounded_position st)) st)) as K.
  destruct (rerender st (with_startTime (Some (rounded_position st)) st)) as [st2 t2].
  simpl in *. rewrite Hm in K. intuition.
Qed.

Lemma click_set_end_cells (st : State) :
  mounted st = true ->
  let st' := fst (step playbackId ClickSetEnd st) in
  endTime st' = Some (rounded_position st)
  /\ startTime st' = startTime st
  /\ errorMessage st' = errorMessage st
  /\ mounted st' = true
  /\ (video st = None <-> video st' = None).
Proof.
  intros Hm. unfold step, seq, handler, when. rewrite Hm.
  unfold onClickSetEnd, setEndTime. fold (rounded_position st).
  pose proof (rerender_keeps st (with_endTime (Some (rounded_position st)) st)) as K.
  destruct (rerender st (with_endTime (Some (rounded_position st)) st)) as [st2 t2].
  simpl in *. rewrite Hm in K. intuition.
Qed.

(** C3, as amended.  With the playhead at [p], "Set start" stores
    [Math.round p], not [p].  When that differs from the start marker
    held, the setter call is followed by a render committing the new
    marker and then by the effect's seek of the video to the stored value,
    once.  When it is the marker already held, the setter call is all
    that happens: nothing renders, nothing seeks and the state, playhead
    included, is what it was.  "Set end" does the same with the end
    marker. *)
Theorem set_marker_stores_rounded_position (st : State) (p : number) :
  mounted st = true ->
  synced st ->
  video st = Some p ->
  (let (st', t) := step playbackId ClickSetStart st in
   startTime st' = Some (Math_round p)
   /\ (startTime st <> Some (Math_round p) ->
       t = [ SetStartTime (Some (Math_round p));
             Render (Some (Math_round p)) (endTime st);
             Seek (Math_round p);
             ConsoleLog (Some (Math_round p)) (endTime st) ]
       /\ video st' = Some (Math_round p))
   /\ (startTime st = Some (Math_round p) ->
       t = [SetStartTime (Some (Math_round p))]
       /\ st' = st /\ video st' = Some p))
  /\ (let (st', t) := step playbackId ClickSetEnd st in
      endTime st' = Some (Math_round p)
      /\ (endTime st <> Some (Math_round p) ->
          t = [ SetEndTime (Some (Math_round p));
                Render (startTime st) (Some (Math_round p));
                Seek (Math_round p);
                ConsoleLog (startTime st) (Some (Math_round p)) ]
          /\ video st' = Some (Math_round p))
      /\ (endTime st = Some (Math_round p) ->
          t = [SetEndTime (Some (Math_round p))]
          /\ st' = st /\ video st' = Some p)).
Proof.
  intros Hm Hs Hv.
  assert (R : rounded_position st = Math_round p)
    by now apply rounded_position_at.
  split.
  - destruct (strict_eq (startTime st) (Some (Math_round p))) eqn:E.
    + apply strict_eq_iff in E.
      rewrite click_set_start_same by (rewrite ?R; assumption).
      rewrite R. rewrite (with_startTime_same st _ E).
      split; [exact E|]. split.
      * intros N. contradiction.
      * intros _. split; [reflexivity|]. split; [reflexivity | exact Hv].
    + apply not_true_iff_false in E. rewrite strict_eq_iff in E.
      rewrite click_set_start_changed by (rewrite ?R; assumption).
      rewrite R, Hv. simpl. split; [reflexivity|]. split.
      * intros _. split; reflexivity.
      * intros N. contradiction.
  - destruct (strict_eq (endTime st) (Some (Math_round p))) eqn:E.
    + apply strict_eq_iff in E.
      rewrite click_set_end_same by (rewrite ?R; assumption).
      rewrite R. rewrite (with_endTime_same st _ E).
      split; [exact E|]. split.
      * intros N. contradiction.
      * intros _. split; [reflexivity|]. split; [reflexivity | exact Hv].
    + apply not_true_iff_false in E. rewrite strict_eq_iff in E.
      rewrite click_set_end_changed by (rewrite ?R; assumption).
      rewrite R, Hv. simpl. split; [reflexivity|]. split.
      * intros _. split; reflexivity.
      * intros N. contradiction.
Qed.

(** A second click with the playhead where the first one left it
    stores the same marker and seeks nowhere. *)
Lemma double_click_set_start (st : State) (p : number) :
  mounted st = true ->
  synced st ->
  video st = Some p ->
  let st1 := fst (step playbackId ClickSetStart st) in
  let (st2, t2) := step playbackId ClickSetStart st1 in
  startTime st2 = Some (Math_round p)
  /\ startTime st1 = Some (Math_round p)
  /\ filter is_seek t2 = [].
Proof.
  intros Hm Hs Hv st1.
  assert (R : rounded_position st = Math_round p)
    by now apply rounded_position_at.
  pose proof (click_set_start_cells st Hm) as (C1 & _ & _ & C4 & _).
  rewrite R in C1. fold st1 in C1, C4.
  assert (V : video st1 = Some p \/ video st1 = Some (Math_round p)).
  { unfold st1.
    destruct (strict_eq (startTime st) (Some (Math_round p))) eqn:E.
    - apply strict_eq_iff in E. left.
      rewrite click_set_start_same by (rewrite ?R; assumption).
      exact Hv.
    - apply not_true_iff_false in E. rewrite strict_eq_iff in E. right.
      rewrite click_set_start_changed by (rewrite ?R; assumption).
      rewrite Hv, R. reflexivity. }
  assert (R1 : rounded_position st1 = Math_round p).
  { destruct V as [V|V]; rewrite (rounded_position_at _ _ V);
      [reflexivity | apply Math_round_idem]. }
  rewrite click_set_start_same by (rewrite ?R1; assumption).
  cbn [fst snd filter is_seek startTime with_startTime].
  rewrite R1. repeat split; try reflexivity. exact C1.
Qed.

End Markers.

Lemma set_marker_stores_rounded_position_witness :
  mounted at_3_7 = true
  /\ synced at_3_7
  /\ video at_3_7 = Some (time 37 10)
  /\ startTime (fst (step "abc" ClickSetStart at_3_7)) =
     Some (Math_round (time 37 10))
  /\ endTime (fst (step "abc" ClickSetEnd at_3_7)) =
     Some (Math_round (time 37 10)).
Proof.
  pose proof (set_marker_stores_rounded_position "abc" at_3_7 (time 37 10)
                eq_refl (conj eq_refl eq_refl) eq_refl) as [H1 H2].
  destruct (step "abc" ClickSetStart at_3_7) as [s1 t1].
  destruct (step "abc" ClickSetEnd at_3_7) as [s2 t2].
  split; [reflexivity|]. split; [split; reflexivity|]. split; [reflexivity|].
  split; [apply H1 | apply H2].
Defined.

(** C3 as stated fails: with the playhead at 3.7 seconds, "Set start"
    stores 4, not 3.7. *)
Lemma set_start_at_3_7_stores_4 :
  video at_3_7 = Some (time 37 10)
  /\ startTime (fst (step "abc" ClickSetStart at_3_7)) = Some (time 4 1)
  /\ startTime (fst (step "abc" ClickSetStart at_3_7)) <> Some (time 37 10).
Proof.
  split; [reflexivity|]. split; [reflexivity|].
  intros H. vm_compute in H. discriminate H.
Qed.

(** *** Runs *)

Lemma run_nil_fst (playbackId : string) (st : State) :
  fst (run playbackId [] st) = st.
Proof. reflexivity. Qed.

Lemma run_cons_fst (playbackId : string) (ev : event) (evs : list event)
    (st : State) :
  fst (run playbackId (ev :: evs) st) =
  fst (run playbackId evs (fst (step playbackId ev st))).
Proof.
  cbn [run]. unfold seq at 1.
  destruct (step playbackId ev st) as [st1 t1]. cbn [fst snd].
  destruct (run playbackId evs st1) as [st2 t2]. reflexivity.
Qed.

Lemma run_cons_snd (playbackId : string) (ev : event) (evs : list event)
    (st : State) :
  snd (run playbackId (ev :: evs) st) =
  snd (step playbackId ev st)
  ++ snd (run playbackId evs (fst (step playbackId ev st))).
Proof.
  cbn [run]. unfold seq at 1.
  destruct (step playbackId ev st) as [st1 t1]. cbn [fst snd].
  destruct (run playbackId evs st1) as [st2 t2]. reflexivity.
Qed.

(** *** The refs follow the markers *)

Section Synced.

Variables (playbackId poster : string).

Lemma times_onUpdated_refs (s e : option number) (n : nat) (st : State) :
  prevStartTime (fst (times n (onUpdated s e) st)) = prevStartTime st
  /\ prevEndTime (fst (times n (onUpdated s e) st)) = prevEndTime st
  /\ mounted (fst (times n (onUpdated s e) st)) = mounted st.
Proof.
  revert st. induction n as [|n IH]; intros st; [simpl; auto|].
  cbn [times]. unfold seq at 1. cbn [onUpdated seq setStartTime setEndTime].
  specialize (IH (with_endTime e (with_startTime s st))).
  destruct (times n (onUpdated s e) (with_endTime e (with_startTime s st)))
    as [st2 t2].
  exact IH.
Qed.

(** No handler writes a ref, and only a mounted component has its markers
    written. *)
Lemma handler_refs (ev : event) (st : State) :
  let st1 := fst (handler playbackId ev st) in
  prevStartTime st1 = prevStartTime st
  /\ prevEndTime st1 = prevEndTime st
  /\ (mounted st1 = true
      \/ (startTime st1 = startTime st /\ endTime st1 = endTime st)).
Proof.
  destruct ev; unfold handler, when; cbn zeta.
  - destruct (mounted st) eqn:Hm; simpl; auto.
  - destruct (mounted st) eqn:Hm; simpl; auto.
  - destruct (mounted st && negb (isCreatingClip st)); simpl; auto.
  - destruct (mounted st) eqn:Hm; [|simpl; auto].
    pose proof (times_onUpdated_refs s e (updatedListeners st) st) as (A & B & C).
    rewrite Hm in C. auto.
  - unfold onImageLoad. destruct (truthy w && truthy h); simpl; auto.
  - destruct (metadataListener st); [|simpl; auto].
    unfold loadedMetadata. destruct (video st); [|simpl; auto].
    destruct (truthy d); simpl; auto.
  - destruct (errorListener st); simpl; auto.
  - destruct (hls st); [|simpl; auto]. destruct fatal; simpl; auto.
  - destruct (video st); simpl; auto.
  - destruct (pending st); [simpl; auto|].
    rewrite settle_resolved. destruct (resolved r); simpl; auto.
  - destruct (mounted st); simpl; auto.
Qed.

Lemma rerender_synced (before st : State) :
  synced before ->
  prevStartTime st = prevStartTime before ->
  prevEndTime st = prevEndTime before ->
  mounted st = true
  \/ (startTime st = startTime before /\ endTime st = endTime before) ->
  synced (fst (rerender before st)).
Proof.
  intros [Bs Be] Ps Pe Hm. unfold synced.
  assert (Same : startTime st = startTime before ->
                 endTime st = endTime before ->
                 prevStartTime st = startTime st /\ prevEndTime st = endTime st)
    by (intros -> ->; split; congruence).
  unfold rerender.
  destruct (mounted st && negb (same_hooks before st)) eqn:R.
  - unfold seq, emit, when, Object_is.
    destruct (strict_eq (startTime before) (startTime st)
              && strict_eq (endTime before) (endTime st)) eqn:D; cbn [negb].
    + apply andb_true_iff in D as [D1 D2].
      apply strict_eq_iff in D1, D2.
      destruct (negb (strict_eq (duration before) (duration st)));
        unfold listenEffect; destruct (trimmer st); simpl;
        apply Same; congruence.
    + unfold timesEffect, seq, when, seekTo, emit.
      destruct (strict_neq (startTime st) (prevStartTime st)) eqn:N1;
        destruct (video st) eqn:Ev;
        cbn -[strict_neq or_zero]; rewrite ?Ev;
        destruct (strict_neq (endTime st) (prevEndTime st)) eqn:N2;
        cbn -[strict_neq or_zero]; rewrite ?Ev;
        cbn -[strict_neq or_zero];
        destruct (negb (strict_eq (duration before) (duration st)));
        unfold listenEffect;
        cbn -[strict_neq or_zero];
        try destruct (trimmer st);
        cbn -[strict_neq or_zero];
        try (apply not_true_iff_false in N1; rewrite strict_neq_iff in N1;
             apply Decidable.not_not in N1;
             [|destruct (strict_eq (startTime st) (prevStartTime st)) eqn:Q;
               [left; now apply strict_eq_iff
               |right; apply not_true_iff_false in Q;
                now rewrite strict_eq_iff in Q]]);
        try (apply not_true_iff_false in N2; rewrite strict_neq_iff in N2;
             apply Decidable.not_not in N2;
             [|destruct (strict_eq (endTime st) (prevEndTime st)) eqn:Q;
               [left; now apply strict_eq_iff
               |right; apply not_true_iff_false in Q;
                now rewrite strict_eq_iff in Q]]);
        split; congruence.
  - cbn [fst]. apply andb_false_iff in R as [R|R].
    + destruct Hm as [Hm|[H1 H2]]; [congruence | now apply Same].
    + apply negb_false_iff, same_hooks_iff in R.
      destruct R as (_ & _ & _ & H1 & H2 & _). apply Same; congruence.
Qed.

(** Every event keeps the refs equal to the markers. *)
Lemma step_synced (ev : event) (st : State) :
  synced st -> synced (fst (step playbackId ev st)).
Proof.
  intros Hs. unfold step, seq.
  pose proof (handler_refs ev st) as (A & B & C).
  destruct (handler playbackId ev st) as [st1 t1]. cbn [fst] in *.
  pose proof (rerender_synced st st1 Hs A B C) as K.
  destruct (rerender st st1) as [st2 t2]. exact K.
Qed.

Lemma mount_synced (br : browser) (hasVideo hasTrimmer : bool) :
  synced (fst (mount playbackId poster br (initial hasVideo hasTrimmer))).
Proof. destruct br, hasVideo, hasTrimmer; split; reflexivity. Qed.

(** So do all the states a mounted component runs through. *)
Lemma run_synced (evs : list event) :
  forall st, synced st -> synced (fst (run playbackId evs st)).
Proof.
  induction evs as [|ev evs IH]; intros st Hs; [exact Hs|].
  rewrite run_cons_fst. apply IH, step_synced, Hs.
Qed.

End Synced.

(** *** The trimmer's update event *)

Section Trimmer.

Variable playbackId : string.

Lemma times_onUpdated_keeps (s e : option number) (k : nat) (st : State) :
  startTime st = s ->
  endTime st = e ->
  startTime (fst (times k (onUpdated s e) st)) = s
  /\ endTime (fst (times k (onUpdated s e) st)) = e
  /\ mounted (fst (times k (onUpdated s e) st)) = mounted st.
Proof.
  revert st. induction k as [|k IH]; intros st Hs He.
  - simpl. auto.
  - cbn [times]. unfold seq at 1. cbn [onUpdated seq setStartTime setEndTime].
    specialize (IH (with_endTime e (with_startTime s st)) eq_refl eq_refl).
    destruct (times k (onUpdated s e) (with_endTime e (with_startTime s st)))
      as [st2 t2].
    exact IH.
Qed.

Lemma times_onUpdated (s e : option number) (n : nat) (st : State) :
  (0 < n)%nat ->
  startTime (fst (times n (onUpdated s e) st)) = s
  /\ endTime (fst (times n (onUpdated s e) st)) = e
  /\ mounted (fst (times n (onUpdated s e) st)) = mounted st.
Proof.
  destruct n as [|k]; [lia|]. intros _.
  cbn [times]. unfold seq at 1. cbn [onUpdated seq setStartTime setEndTime].
  pose proof (times_onUpdated_keeps s e k
                (with_endTime e (with_startTime s st)) eq_refl eq_refl) as IH.
  destruct (times k (onUpdated s e) (with_endTime e (with_startTime s st)))
    as [st2 t2].
  exact IH.
Qed.

Lemma step_updated_cells (st : State) (s e : option number) :
  mounted st = true ->
  (0 < updatedListeners st)%nat ->
  startTime (fst (step playbackId (Updated s e) st)) = s
  /\ endTime (fst (step playbackId (Updated s e) st)) = e.
Proof.
  intros Hm Hl. unfold step, seq, handler, when. rewrite Hm.
  pose proof (times_onUpdated s e (updatedListeners st) st Hl) as (T1 & T2 & _).
  destruct (times (updatedListeners st) (onUpdated s e) st) as [st1 t1].
  pose proof (rerender_keeps st st1) as (K1 & K2 & _).
  destruct (rerender st st1) as [st2 t2].
  cbn [fst] in *. split; congruence.
Qed.

(** C4.  An 'updated' event of the trimmer carrying [(s, e)], reaching a
    mounted clipper through the listener(s) it registered, leaves
    [startTime = s] and [endTime = e] exactly: whatever the markers held
    before, whatever [s] and [e] are (absent, fractional, inverted),
    nothing is checked, rounded or refused. *)
Theorem updated_overwrites_markers (st : State) (s e : option number) :
  mounted st = true ->
  (0 < updatedListeners st)%nat ->
  startTime (fst (step playbackId (Updated s e) st)) = s
  /\ endTime (fst (step playbackId (Updated s e) st)) = e.
Proof. apply step_updated_cells. Qed.

End Trimmer.

(** The event of the specification: 3.2 and 9.7 over markers 5 and 12. *)
Lemma updated_overwrites_markers_witness :
  mounted marked_5_12 = true
  /\ (0 < updatedListeners marked_5_12)%nat
  /\ startTime marked_5_12 = Some (time 5 1)
  /\ endTime marked_5_12 = Some (time 12 1)
  /\ startTime (fst (step "abc" (Updated (Some (time 16 5)) (Some (time 97 10)))
                       marked_5_12)) = Some (time 16 5)
  /\ endTime (fst (step "abc" (Updated (Some (time 16 5)) (Some (time 97 10)))
                     marked_5_12)) = Some (time 97 10).
Proof.
  assert (Hl : (0 < updatedListeners marked_5_12)%nat)
    by (vm_compute; lia).
  pose proof (updated_overwrites_markers "abc" marked_5_12
                (Some (time 16 5)) (Some (time 97 10)) eq_refl Hl) as [H1 H2].
  split; [reflexivity|]. split; [exact Hl|].
  split; [reflexivity|]. split; [reflexivity|].
  split; [exact H1 | exact H2].
Defined.

(** *** Inverted ranges *)

Section Inverted.

Variable playbackId : string.

(** C5.  Let the end marker be set with the playhead at [p] and the
    start marker with the playhead at [q], in either order, [p] and [q]
    being any two positions ([q] after [p] included).  Both markers are
    then present with the values set, start from [q] and end from [p]:
    neither click changes the other marker, nothing swaps them and no
    error is raised. *)
Theorem inverted_range_is_kept (st : State) (p q : number) :
  mounted st = true ->
  video st <> None ->
  let a := fst (run playbackId
                  [Playback p; ClickSetEnd; Playback q; ClickSetStart] st) in
  let b := fst (run playbackId
                  [Playback q; ClickSetStart; Playback p; ClickSetEnd] st) in
  (startTime a = Some (Math_round q) /\ endTime a = Some (Math_round p)
   /\ errorMessage a = errorMessage st)
  /\ (startTime b = Some (Math_round q) /\ endTime b = Some (Math_round p)
      /\ errorMessage b = errorMessage st).
Proof.
  intros Hm Hv a b. subst a b.
  rewrite !run_cons_fst, !run_nil_fst.
  destruct (video st) as [p0|] eqn:Ev; [clear Hv | congruence].
  split.
  - rewrite (step_playback playbackId st p0 p Ev). cbn [fst].
    set (st1 := with_video (Some p) st).
    assert (M1 : mounted st1 = true) by exact Hm.
    pose proof (click_set_end_cells playbackId st1 M1) as (E2 & S2 & X2 & M2 & V2).
    rewrite (rounded_position_at st1 p eq_refl) in E2.
    set (st2 := fst (step playbackId ClickSetEnd st1)) in *.
    destruct (video st2) as [p2|] eqn:Ev2;
      [|exfalso; destruct V2 as [_ V2]; specialize (V2 eq_refl); discriminate V2].
    rewrite (step_playback playbackId st2 p2 q Ev2). cbn [fst].
    set (st3 := with_video (Some q) st2).
    assert (M3 : mounted st3 = true) by exact M2.
    pose proof (click_set_start_cells playbackId st3 M3) as (S4 & E4 & X4 & _).
    rewrite (rounded_position_at st3 q eq_refl) in S4.
    split; [exact S4|]. split.
    + rewrite E4. exact E2.
    + rewrite X4. change (errorMessage st3) with (errorMessage st2).
      rewrite X2. reflexivity.
  - rewrite (step_playback playbackId st p0 q Ev). cbn [fst].
    set (st1 := with_video (Some q) st).
    assert (M1 : mounted st1 = true) by exact Hm.
    pose proof (click_set_start_cells playbackId st1 M1) as (S2 & E2 & X2 & M2 & V2).
    rewrite (rounded_position_at st1 q eq_refl) in S2.
    set (st2 := fst (step playbackId ClickSetStart st1)) in *.
    destruct (video st2) as [p2|] eqn:Ev2;
      [|exfalso; destruct V2 as [_ V2]; specialize (V2 eq_refl); discriminate V2].
    rewrite (step_playback playbackId st2 p2 p Ev2). cbn [fst].
    set (st3 := with_video (Some p) st2).
    assert (M3 : mounted st3 = true) by exact M2.
    pose proof (click_set_end_cells playbackId st3 M3) as (E4 & S4 & X4 & _).
    rewrite (rounded_position_at st3 p eq_refl) in E4.
    split; [|split; [exact E4|]].
    + rewrite S4. exact S2.
    + rewrite X4. change (errorMessage st3) with (errorMessage st2).
      rewrite X2. reflexivity.
Qed.

End Inverted.

(** End set at 5 seconds, then start set at 12: the range stays (12, 5). *)
Lemma inverted_range_is_kept_witness :
  mounted mounted0 = true
  /\ video mounted0 <> None
  /\ startTime (fst (run "abc" [Playback (time 5 1); ClickSetEnd;
                                Playback (time 12 1); ClickSetStart] mounted0))
     = Some (Math_round (time 12 1))
  /\ endTime (fst (run "abc" [Playback (time 5 1); ClickSetEnd;
                              Playback (time 12 1); ClickSetStart] mounted0))
     = Some (Math_round (time 5 1))
  /\ (Math_round (time 5 1) < Math_round (time 12 1))%Qc.
Proof.
  assert (Hv : video mounted0 <> None) by discriminate.
  pose proof (inverted_range_is_kept "abc" mounted0 (time 5 1) (time 12 1)
                eq_refl Hv) as [(H1 & H2 & _) _].
  split; [reflexivity|]. split; [exact Hv|].
  split; [exact H1|]. split; [exact H2|]. reflexivity.
Defined.

(** *** What the buttons and the trimmer store *)

Section Stored.

Variable playbackId : string.


End Stored.


(** *** Seeks come after the commit *)

Lemma seeks_follow_app (t1 t2 : trace) :
  forall last,
    seeks_follow last t1 = true ->
    (forall last', seeks_follow last' t2 = true) ->
    seeks_follow last (t1 ++ t2) = true.
Proof.
  induction t1 as [|a t1 IH]; intros last H1 H2.
  - apply H2.
  - destruct a; cbn [app seeks_follow] in *; try (now apply IH).
    destruct last as [[s e]|]; [|discriminate].
    apply andb_true_iff in H1 as [Ha Hb].
    rewrite Ha. now apply IH.
Qed.

Lemma no_seek_follows (t : trace) :
  no_seek t = true -> forall last, seeks_follow last t = true.
Proof.
  induction t as [|a t IH]; intros H last; [reflexivity|].
  cbn [no_seek forallb] in H. apply andb_true_iff in H as [Ha Ht].
  destruct a; cbn [seeks_follow]; try (now apply IH).
  discriminate Ha.
Qed.

Section Ordering.

Variables (playbackId poster : string).

Lemma times_onUpdated_no_seek (s e : option number) (n : nat) (st : State) :
  no_seek (snd (times n (onUpdated s e) st)) = true.
Proof.
  revert st. induction n as [|n IH]; intros st; [reflexivity|].
  cbn [times]. unfold seq at 1. cbn [onUpdated seq setStartTime setEndTime].
  specialize (IH (with_endTime e (with_startTime s st))).
  destruct (times n (onUpdated s e) (with_endTime e (with_startTime s st)))
    as [st2 t2].
  exact IH.
Qed.

(** No handler assigns [currentTime]. *)
Lemma handler_no_seek (ev : event) (st : State) :
  no_seek (snd (handler playbackId ev st)) = true.
Proof.
  destruct ev; unfold handler, when.
  - destruct (mounted st); reflexivity.
  - destruct (mounted st); reflexivity.
  - destruct (mounted st && negb (isCreatingClip st)); reflexivity.
  - destruct (mounted st); [apply times_onUpdated_no_seek | reflexivity].
  - unfold onImageLoad. destruct (truthy w && truthy h); reflexivity.
  - destruct (metadataListener st); [|reflexivity].
    unfold loadedMetadata. destruct (video st); [|reflexivity].
    destruct (truthy d); reflexivity.
  - destruct (errorListener st); reflexivity.
  - destruct (hls st); [|reflexivity]. destruct fatal; reflexivity.
  - destruct (video st); reflexivity.
  - destruct (pending st); [reflexivity|].
    rewrite settle_resolved. destruct (resolved r); reflexivity.
  - destruct (mounted st); [|reflexivity].
    rewrite unmount_trace. destruct (video st), (hls st); reflexivity.
Qed.

(** The seeks of a render target the markers that render committed. *)
Lemma rerender_seeks_follow (before st : State) :
  forall last, seeks_follow last (snd (rerender before st)) = true.
Proof.
  intros last.
  unfold rerender, seq, emit, when, timesEffect, listenEffect, seekTo, seq, when.
  destruct (mounted st && negb (same_hooks before st)); [|reflexivity].
  destruct (negb (Object_is (startTime before) (startTime st)
                  && Object_is (endTime before) (endTime st)));
    destruct (negb (Object_is (duration before) (duration st)));
    try (destruct (trimmer st); reflexivity);
    destruct (strict_neq (startTime st) (prevStartTime st));
    destruct (video st) eqn:Ev;
    cbn -[Qeq_bool or_zero strict_neq];
    rewrite ?Ev;
    destruct (strict_neq (endTime st) (prevEndTime st));
    cbn -[Qeq_bool or_zero strict_neq];
    rewrite ?Ev;
    cbn -[Qeq_bool or_zero strict_neq];
    try destruct (trimmer st);
    cbn -[Qeq_bool or_zero strict_neq];
    rewrite ?Qeq_bool_refl, ?orb_true_r; reflexivity.
Qed.

Lemma step_trace (ev : event) (st : State) :
  snd (step playbackId ev st) =
  snd (handler playbackId ev st)
  ++ snd (rerender st (fst (handler playbackId ev st))).
Proof.
  unfold step, seq. destruct (handler playbackId ev st) as [st1 t1].
  cbn [fst snd]. destruct (rerender st st1) as [st2 t2]. reflexivity.
Qed.

Lemma step_seeks_follow (ev : event) (st : State) :
  forall last, seeks_follow last (snd (step playbackId ev st)) = true.
Proof.
  intros last. rewrite step_trace. apply seeks_follow_app.
  - apply no_seek_follows, handler_no_seek.
  - apply rerender_seeks_follow.
Qed.

Lemma run_seeks_follow (evs : list event) :
  forall st last, seeks_follow last (snd (run playbackId evs st)) = true.
Proof.
  induction evs as [|ev evs IH]; intros st last; [reflexivity|].
  rewrite run_cons_snd. apply seeks_follow_app.
  - apply step_seeks_follow.
  - apply IH.
Qed.

(** C6.  Take any events that reach the component through React's own
    handlers, the clicks on "Set start", "Set end" and "create clip" among
    them, in any order and number (a double click included).  Run from the
    first render, or from any state whatever led to it, their trace has
    each assignment to the video's [currentTime] come after a committed
    render, with no marker setter called in between, and target the start
    or the end marker that render committed ([|| 0] applied): the seek a
    button triggers is never issued from the click handler, before the
    marker is recorded, nor against a value other than the recorded
    one. *)
Theorem seek_follows_recorded_marker (br : browser)
    (hasVideo hasTrimmer : bool) (evs : list event) :
  forallb react_handled evs = true ->
  (let (st0, t0) := mount playbackId poster br (initial hasVideo hasTrimmer) in
   seeks_follow None (t0 ++ snd (run playbackId evs st0)) = true)
  /\ (forall st last, seeks_follow last (snd (run playbackId evs st)) = true).
Proof.
  intros _. split.
  - destruct (mount playbackId poster br (initial hasVideo hasTrimmer))
      as [st0 t0] eqn:E.
    apply seeks_follow_app.
    + assert (Ht : t0 = snd (mount playbackId poster br
                               (initial hasVideo hasTrimmer)))
        by now rewrite E.
      rewrite Ht. destruct br, hasVideo, hasTrimmer; reflexivity.
    + intros last. apply run_seeks_follow.
  - intros st last. apply run_seeks_follow.
Qed.

End Ordering.

(** A double click on "Set start" with the video at 3.7 seconds, then a
    click on "Set end". *)
Lemma seek_follows_recorded_marker_witness :
  forallb react_handled [ClickSetStart; ClickSetStart; ClickSetEnd] = true
  /\ seeks_follow None
       (snd (run "abc" [ClickSetStart; ClickSetStart; ClickSetEnd] at_3_7))
     = true
  /\ filter is_seek
       (snd (run "abc" [ClickSetStart; ClickSetStart; ClickSetEnd] at_3_7))
     = [Seek (time 4 1); Seek (time 4 1)].
Proof.
  pose proof (seek_follows_recorded_marker "abc" "poster.png" Mse true true
                [ClickSetStart; ClickSetStart; ClickSetEnd] eq_refl)
    as [_ H].
  split; [reflexivity|]. split; [apply H | reflexivity].
Defined.

(** The predicate does refuse what the claim excludes: a seek issued by
    the handler before the render, and a seek to a value that is not the
    committed marker. *)
Example seek_before_commit_refused :
  seeks_follow None
    [SetStartTime (Some (time 4 1)); Seek (time 4 1);
     Render (Some (time 4 1)) None] = false
  /\ seeks_follow None
       [SetStartTime (Some (time 4 1)); Render (Some (time 4 1)) None;
        Seek (time 3 1)] = false.
Proof. split; reflexivity. Qed.

(** *** The poster probe *)

Section Probe.

Variable playbackId : string.

(** C8, as amended.  When the probe image loads with a width or a height
    of zero, the clipper calls [onLoaded] and logs "Error getting img
    dimensions", and does nothing else: no cell changes, so the layout
    stays what it was (the default 1000px by auto when no probe has
    succeeded), [onError] is not called and the component stays mounted.
    The player's [onImageLoad] does the same.  An image that cannot be
    loaded at all reaches neither component: nothing is logged, [onLoaded]
    is not called and the state is untouched. *)
Theorem failed_probe_still_loads (st : State) (w h : number) :
  truthy w && truthy h = false ->
  step playbackId (ImageLoad w h) st =
    (st, [OnLoaded; ConsoleError "Error getting img dimensions"])
  /\ (isVertical st = None ->
      layout (fst (step playbackId (ImageLoad w h) st)) = ("1000px", "auto")%string)
  /\ (forall ps : VideoPlayer.State,
         VideoPlayer.onImageLoad w h ps =
           (ps, [VideoPlayer.OnLoaded;
                 VideoPlayer.ConsoleError "Error getting img dimensions"])
         /\ (VideoPlayer.isVertical ps = None ->
             VideoPlayer.layout (fst (VideoPlayer.onImageLoad w h ps))
             = ("1000px", "auto")%string))
  /\ PosterProbe.clipperProbe playbackId (PosterProbe.Load w h) st =
       (st, [OnLoaded; ConsoleError "Error getting img dimensions"])
  /\ PosterProbe.clipperProbe playbackId PosterProbe.Error st = (st, [])
  /\ (forall ps : VideoPlayer.State,
         PosterProbe.playerProbe PosterProbe.Error ps = (ps, [])).
Proof.
  intros H.
  assert (S : step playbackId (ImageLoad w h) st =
              (st, [OnLoaded; ConsoleError "Error getting img dimensions"])).
  { unfold step, seq, handler, onImageLoad. rewrite H. simpl.
    rewrite rerender_same by apply same_hooks_refl. reflexivity. }
  split; [exact S|]. split; [|split; [|split; [exact S|split; reflexivity]]].
  - intros Hv. rewrite S. unfold layout. simpl. now rewrite Hv.
  - intros ps. unfold VideoPlayer.onImageLoad. rewrite H. split; [reflexivity|].
    intros Hv. unfold VideoPlayer.layout. simpl. now rewrite Hv.
Qed.

End Probe.

(** A poster that loads with no width. *)
Lemma failed_probe_still_loads_witness :
  truthy (time 0 1) && truthy (time 100 1) = false
  /\ step "abc" (ImageLoad (time 0 1) (time 100 1)) mounted0 =
     (mounted0, [OnLoaded; ConsoleError "Error getting img dimensions"])
  /\ layout (fst (step "abc" (ImageLoad (time 0 1) (time 100 1)) mounted0))
     = ("1000px", "auto")%string.
Proof.
  pose proof (failed_probe_still_loads "abc" mounted0 (time 0 1) (time 100 1)
                eq_refl) as (H1 & H2 & _).
  split; [reflexivity|]. split; [exact H1 | exact (H2 eq_refl)].
Defined.

(** C8 as stated fails: a poster that cannot be loaded is a probe failure,
    and for it the clipper logs nothing and does not call [onLoaded]. *)
Lemma unloadable_poster_goes_unnoticed :
  PosterProbe.unusable PosterProbe.Error = true
  /\ ~ PosterProbe.logged_and_loaded "abc" mounted0 PosterProbe.Error.
Proof.
  split; [reflexivity|].
  unfold PosterProbe.logged_and_loaded. simpl. intros [H _]. discriminate H.
Qed.

End VideoClipperFacts.

(** ** More on the clipper: what its runs keep and never do *)

Module ClipperRunsFacts.

Import Js Json JsFacts VideoClipper VideoClipperFacts ClipperRuns.
Local Open Scope list_scope.

(** What rendering and its effects leave alone, beyond the cells. *)
Lemma rerender_frame (before st : State) :
  let st' := fst (rerender before st) in
  pending st' = pending st
  /\ duration st' = duration st
  /\ trimmer st' = trimmer st
  /\ errorListener st' = errorListener st
  /\ metadataListener st' = metadataListener st
  /\ hls st' = hls st
  /\ (updatedListeners st <= updatedListeners st')%nat.
Proof.
  unfold rerender, seq, emit, when, timesEffect, listenEffect, seekTo, seq, when.
  destruct (mounted st && negb (same_hooks before st)); simpl;
    [|repeat split; auto].
  destruct (negb (Object_is (startTime before) (startTime st)
                  && Object_is (endTime before) (endTime st))); simpl;
    [destruct (strict_neq (startTime st) (prevStartTime st)); simpl;
     destruct (video st) eqn:Ev; simpl;
     [ destruct (strict_neq (endTime st) (prevEndTime st)); simpl
     | rewrite ?Ev; destruct (strict_neq (endTime st) (prevEndTime st)); simpl; rewrite ?Ev
     | destruct (strict_neq (endTime st) (prevEndTime st)); simpl; rewrite ?Ev
     | destruct (strict_neq (endTime st) (prevEndTime st)); simpl; rewrite ?Ev ]|];
    destruct (negb (Object_is (duration before) (duration st))); simpl;
    destruct (trimmer st) eqn:Et; simpl; rewrite ?Ev;
    repeat split; auto.
Qed.

(** A render performs no request, no navigation and calls no callback. *)
Lemma rerender_trace_inert (before st : State) :
  forall a, In a (snd (rerender before st)) ->
            is_fetch a = false /\ is_push a = false
            /\ is_on_error a = false /\ is_on_loaded a = false
            /\ is_console_error a = false.
Proof.
  intros a.
  unfold rerender, seq, emit, when, timesEffect, listenEffect, seekTo, seq, when.
  destruct (mounted st && negb (same_hooks before st)); [|intros []].
  destruct (negb (Object_is (startTime before) (startTime st)
                  && Object_is (endTime before) (endTime st)));
    destruct (negb (Object_is (duration before) (duration st)));
    destruct (strict_neq (startTime st) (prevStartTime st));
    destruct (video st) eqn:Ev;
    cbn -[strict_neq or_zero]; rewrite ?Ev;
    destruct (strict_neq (endTime st) (prevEndTime st));
    cbn -[strict_neq or_zero]; rewrite ?Ev;
    cbn -[strict_neq or_zero];
    try destruct (trimmer st);
    cbn -[strict_neq or_zero];
    intros H;
    repeat (destruct H as [H|H]; [subst a; repeat split; reflexivity|]);
    contradiction.
Qed.

Lemma filter_none {A : Type} (f : A -> bool) (l : list A) :
  (forall a, In a l -> f a = false) -> filter f l = [].
Proof.
  induction l as [|x l IH]; intros H; [reflexivity|].
  simpl. rewrite (H x (or_introl eq_refl)). apply IH.
  intros a Ha. apply H. now right.
Qed.

(** However many listeners run, the trimmer's event leaves the state a
    single listener would. *)
Lemma times_onUpdated_state (s e : option number) (n : nat) (st : State) :
  fst (times n (onUpdated s e) st) =
  match n with
  | O => st
  | S _ => with_endTime e (with_startTime s st)
  end.
Proof.
  revert st. induction n as [|n IH]; intros st; [reflexivity|].
  cbn [times]. unfold seq at 1. cbn [onUpdated seq setStartTime setEndTime].
  specialize (IH (with_endTime e (with_startTime s st))).
  destruct (times n (onUpdated s e) (with_endTime e (with_startTime s st)))
    as [st2 t2].
  cbn [fst] in *. rewrite IH. destruct n; reflexivity.
Qed.

Lemma times_onUpdated_trace (s e : option number) (n : nat) (st : State) :
  forall a, In a (snd (times n (onUpdated s e) st)) ->
            a = SetStartTime s \/ a = SetEndTime e.
Proof.
  revert st. induction n as [|n IH]; intros st a; [intros []|].
  cbn [times]. unfold seq at 1. cbn [onUpdated seq setStartTime setEndTime].
  specialize (IH (with_endTime e (with_startTime s st)) a).
  destruct (times n (onUpdated s e) (with_endTime e (with_startTime s st)))
    as [st2 t2].
  cbn [snd app] in *. intros [H|[H|H]]; auto.
Qed.

Section Requests.

Variables (playbackId poster : string).





(** The handler of an event other than a click on "create clip" requests
    nothing, and that click requests once at most. *)
Lemma handler_fetches (ev : event) (st : State) :
  (length (filter is_fetch (snd (handler playbackId ev st)))
   <= if is_click_create ev then 1 else 0)%nat.
Proof.
  destruct ev; unfold handler, when; cbn [is_click_create].
  - destruct (mounted st); simpl; lia.
  - destruct (mounted st); simpl; lia.
  - destruct (mounted st && negb (isCreatingClip st)); simpl; lia.
  - destruct (mounted st); [|simpl; lia].
    rewrite filter_none; [simpl; lia|].
    intros a Ha. apply times_onUpdated_trace in Ha as [->| ->]; reflexivity.
  - unfold onImageLoad. destruct (truthy w && truthy h); simpl; lia.
  - destruct (metadataListener st); [|simpl; lia].
    unfold loadedMetadata. destruct (video st); [|simpl; lia].
    destruct (truthy d); simpl; lia.
  - destruct (errorListener st); simpl; lia.
  - destruct (hls st); [|simpl; lia]. destruct fatal; simpl; lia.
  - destruct (video st); simpl; lia.
  - destruct (pending st); [simpl; lia|].
    rewrite settle_resolved. destruct (resolved r); simpl; lia.
  - destruct (mounted st); [|simpl; lia].
    rewrite unmount_trace. destruct (video st), (hls st); simpl; lia.
Qed.

(** Only the handler of a settled request navigates, once at most. *)
Lemma handler_pushes (ev : event) (st : State) :
  (length (filter is_push (snd (handler playbackId ev st)))
   <= if is_settled ev then 1 else 0)%nat.
Proof.
  destruct ev; unfold handler, when; cbn [is_settled].
  - destruct (mounted st); simpl; lia.
  - destruct (mounted st); simpl; lia.
  - destruct (mounted st && negb (isCreatingClip st)); simpl; lia.
  - destruct (mounted st); [|simpl; lia].
    rewrite filter_none; [simpl; lia|].
    intros a Ha. apply times_onUpdated_trace in Ha as [->| ->]; reflexivity.
  - unfold onImageLoad. destruct (truthy w && truthy h); simpl; lia.
  - destruct (metadataListener st); [|simpl; lia].
    unfold loadedMetadata. destruct (video st); [|simpl; lia].
    destruct (truthy d); simpl; lia.
  - destruct (errorListener st); simpl; lia.
  - destruct (hls st); [|simpl; lia]. destruct fatal; simpl; lia.
  - destruct (video st); simpl; lia.
  - destruct (pending st); [simpl; lia|].
    rewrite settle_resolved. destruct (resolved r); simpl; lia.
  - destruct (mounted st); [|simpl; lia].
    rewrite unmount_trace. destruct (video st), (hls st); simpl; lia.
Qed.

Lemma step_filter (f : action -> bool) (ev : event) (st : State) :
  (forall b s a, In a (snd (rerender b s)) -> f a = false) ->
  filter f (snd (step playbackId ev st)) =
  filter f (snd (handler playbackId ev st)).
Proof.
  intros H. unfold step, seq.
  destruct (handler playbackId ev st) as [st1 t1].
  pose proof (H st st1) as K.
  destruct (rerender st st1) as [st2 t2]. cbn [snd] in *.
  rewrite filter_app, (filter_none f t2 K), app_nil_r. reflexivity.
Qed.

(** X2.  In every run of the clipper the requests sent are at most as many
    as the clicks on "create clip", and the navigations at most as many as
    the requests that settled: nothing is sent again on its own after a
    failure, and nothing but a settled request navigates. *)
Theorem no_request_without_click (evs : list event) (st : State) :
  (length (filter is_fetch (snd (run playbackId evs st)))
   <= length (filter is_click_create evs))%nat
  /\ (length (filter is_push (snd (run playbackId evs st)))
      <= length (filter is_settled evs))%nat.
Proof.
  revert st. induction evs as [|ev evs IH]; intros st; [simpl; lia|].
  rewrite run_cons_snd, !filter_app, !length_app.
  destruct (IH (fst (step playbackId ev st))) as [IH1 IH2].
  rewrite (step_filter is_fetch), (step_filter is_push)
    by (intros b s a Ha; now apply rerender_trace_inert in Ha).
  pose proof (handler_fetches ev st) as F.
  pose proof (handler_pushes ev st) as P.
  cbn [filter].
  destruct (is_click_create ev), (is_settled ev); cbn [length]; lia.
Qed.

(** X3.  After a failed attempt (the request fails on the network,
    answers with a body that is not JSON, or answers [null]) the inline
    message is shown and the create button is back; a further click clears
    the message and sends the same request again: same address, method and
    body. *)
Theorem failed_create_can_be_retried (st : State) (r : outcome) :
  mounted st = true ->
  isCreatingClip st = false ->
  resolved r = None ->
  errorMessage (fst (run playbackId [ClickCreate; Settled r] st))
    = "Error creating this clip"%string
  /\ isCreatingClip (fst (run playbackId [ClickCreate; Settled r] st)) = false
  /\ (let (st3, t) := run playbackId [ClickCreate; Settled r; ClickCreate] st in
      errorMessage st3 = ""%string
      /\ isCreatingClip st3 = true
      /\ filter is_fetch t =
           [ Fetch "/api/clips" "POST"
               [ ("playbackId", VStr playbackId);
                 ("startTime", of_time (startTime st));
                 ("endTime", of_time (endTime st)) ];
             Fetch "/api/clips" "POST"
               [ ("playbackId", VStr playbackId);
                 ("startTime", of_time (startTime st));
                 ("endTime", of_time (endTime st)) ] ]).
Proof.
  intros Hm Hc Hr.
  assert (S2 : step playbackId (Settled r) (creating st) =
               (with_errorMessage "Error creating this clip"
                  (with_isCreatingClip false (with_pending (pending st) (creating st))),
                [ ConsoleError "Error in createUpload";
                  SetIsCreatingClip false;
                  SetErrorMessage "Error creating this clip";
                  Reject;
                  Render (startTime st) (endTime st) ])).
  { apply (settled_catch playbackId (creating st) (pending st) r);
      try reflexivity; assumption. }
  unfold run, seq, skip.
  rewrite !(click_create playbackId st Hm Hc), !S2.
  split; [reflexivity|]. split; [reflexivity|].
  rewrite click_create by (try reflexivity; exact Hm).
  repeat split; reflexivity.
Qed.

End Requests.

Lemma failed_create_can_be_retried_witness :
  mounted marked_5_12 = true
  /\ isCreatingClip marked_5_12 = false
  /\ resolved NetworkError = None
  /\ errorMessage (fst (run "abc" [ClickCreate; Settled NetworkError] marked_5_12))
     = "Error creating this clip"%string
  /\ errorMessage
       (fst (run "abc" [ClickCreate; Settled NetworkError; ClickCreate] marked_5_12))
     = ""%string.
Proof.
  pose proof (failed_create_can_be_retried "abc" marked_5_12 NetworkError
                eq_refl eq_refl eq_refl) as (H1 & _ & H3).
  destruct (run "abc" [ClickCreate; Settled NetworkError; ClickCreate] marked_5_12)
    as [st3 t].
  split; [reflexivity|]. split; [reflexivity|]. split; [reflexivity|].
  split; [exact H1 | apply H3].
Defined.

(** *** Markers and the playhead *)

Lemma strict_eq_sym (a b : option number) : strict_eq a b = strict_eq b a.
Proof.
  apply eq_true_iff_eq. rewrite !strict_eq_iff. split; congruence.
Qed.

Lemma no_seek_filter (t : trace) :
  no_seek t = true -> filter is_seek t = [].
Proof.
  intros H. apply filter_none. intros a Ha.
  unfold no_seek in H. rewrite forallb_forall in H.
  apply H in Ha. now apply negb_true_iff in Ha.
Qed.

Section Playhead.

Variables (playbackId poster : string).

(** X4.  After the first render and after every event since, the two refs
    [prevStartTime] and [prevEndTime] hold the markers of the state: the
    guard of the seek effect, [startTime !== prevStartTime.current], is
    then true exactly when the render changed the marker. *)
Theorem refs_follow_markers (br : browser) (hasVideo hasTrimmer : bool)
    (evs : list event) :
  let st := fst (run playbackId evs
                   (fst (mount playbackId poster br
                           (initial hasVideo hasTrimmer)))) in
  prevStartTime st = startTime st /\ prevEndTime st = endTime st.
Proof.
  intros st. apply (run_synced playbackId), (mount_synced playbackId).
Qed.

(** X5.  The marker a button stores is within half a second of the
    position it read: [p - 1/2 < m <= p + 1/2]. *)
Theorem stored_marker_within_half_second (st : State) (p : number) :
  mounted st = true ->
  video st = Some p ->
  exists m : number,
    startTime (fst (step playbackId ClickSetStart st)) = Some m
    /\ endTime (fst (step playbackId ClickSetEnd st)) = Some m
    /\ (m <= p + (1 # 2))%Q
    /\ (p < m + (1 # 2))%Q.
Proof.
  intros Hm Hv. exists (Math_round p).
  pose proof (click_set_start_cells playbackId st Hm) as (S1 & _).
  pose proof (click_set_end_cells playbackId st Hm) as (E1 & _).
  rewrite (rounded_position_at st p Hv) in S1, E1.
  split; [exact S1|]. split; [exact E1|].
  destruct (Math_round_near p) as [L U].
  assert (M : (Math_round p == inject_Z (Qfloor (p + (1 # 2))))%Q).
  { unfold Math_round, of_Z, Q2Qc. cbn [this]. apply Qred_correct. }
  split.
  - rewrite M. exact L.
  - rewrite M. rewrite inject_Z_plus in U.
    apply Qplus_lt_l with (z := 1 # 2).
    setoid_replace (inject_Z (Qfloor (p + (1 # 2))) + (1 # 2) + (1 # 2))%Q
      with (inject_Z (Qfloor (p + (1 # 2))) + inject_Z 1)%Q by ring.
    exact U.
Qed.

(** A click leaves the state of a clipper whose marker is already the
    rounded position. *)
Lemma click_again (st : State) :
  mounted st = true ->
  (startTime st = Some (rounded_position st) ->
   step playbackId ClickSetStart st = (st, [SetStartTime (startTime st)]))
  /\ (endTime st = Some (rounded_position st) ->
      step playbackId ClickSetEnd st = (st, [SetEndTime (endTime st)])).
Proof.
  intros Hm. split; intros H.
  - rewrite click_set_start_same by assumption.
    rewrite with_startTime_same by exact H. now rewrite H.
  - rewrite click_set_end_same by assumption.
    rewrite with_endTime_same by exact H. now rewrite H.
Qed.

(** After a click the marker is the rounded position of the state
    reached. *)
Lemma click_settles (st : State) (p : number) :
  mounted st = true ->
  synced st ->
  video st = Some p ->
  (let st1 := fst (step playbackId ClickSetStart st) in
   mounted st1 = true /\ startTime st1 = Some (rounded_position st1)
   /\ startTime st1 = Some (Math_round p))
  /\ (let st1 := fst (step playbackId ClickSetEnd st) in
      mounted st1 = true /\ endTime st1 = Some (rounded_position st1)
      /\ endTime st1 = Some (Math_round p)).
Proof.
  intros Hm Hs Hv.
  assert (R : rounded_position st = Math_round p)
    by now apply rounded_position_at.
  split; intros st1.
  - pose proof (click_set_start_cells playbackId st Hm) as (C1 & _ & _ & C4 & _).
    rewrite R in C1. fold st1 in C1, C4.
    assert (V : video st1 = Some p \/ video st1 = Some (Math_round p)).
    { unfold st1.
      destruct (strict_eq (startTime st) (Some (Math_round p))) eqn:E.
      - apply strict_eq_iff in E. left.
        rewrite click_set_start_same by (rewrite ?R; assumption). exact Hv.
      - apply not_true_iff_false in E. rewrite strict_eq_iff in E. right.
        rewrite click_set_start_changed by (rewrite ?R; assumption).
        rewrite Hv, R. reflexivity. }
    assert (R1 : rounded_position st1 = Math_round p).
    { destruct V as [V|V]; rewrite (rounded_position_at _ _ V);
        [reflexivity | apply Math_round_idem]. }
    rewrite R1. auto.
  - pose proof (click_set_end_cells playbackId st Hm) as (C1 & _ & _ & C4 & _).
    rewrite R in C1. fold st1 in C1, C4.
    assert (V : video st1 = Some p \/ video st1 = Some (Math_round p)).
    { unfold st1.
      destruct (strict_eq (endTime st) (Some (Math_round p))) eqn:E.
      - apply strict_eq_iff in E. left.
        rewrite click_set_end_same by (rewrite ?R; assumption). exact Hv.
      - apply not_true_iff_false in E. rewrite strict_eq_iff in E. right.
        rewrite click_set_end_changed by (rewrite ?R; assumption).
        rewrite Hv, R. reflexivity. }
    assert (R1 : rounded_position st1 = Math_round p).
    { destruct V as [V|V]; rewrite (rounded_position_at _ _ V);
        [reflexivity | apply Math_round_idem]. }
    rewrite R1. auto.
Qed.

(** X6.  Clicking a marker button a second time, the playhead left where
    the first click put it, changes nothing: the state stays as it is, no
    render and no seek follow; the only action is the setter called with
    the value already held. *)
Theorem repeated_click_changes_nothing (st : State) (p : number) :
  mounted st = true ->
  synced st ->
  video st = Some p ->
  (let st1 := fst (step playbackId ClickSetStart st) in
   step playbackId ClickSetStart st1 = (st1, [SetStartTime (Some (Math_round p))]))
  /\ (let st1 := fst (step playbackId ClickSetEnd st) in
      step playbackId ClickSetEnd st1 = (st1, [SetEndTime (Some (Math_round p))])).
Proof.
  intros Hm Hs Hv.
  destruct (click_settles st p Hm Hs Hv) as [(M1 & A1 & B1) (M2 & A2 & B2)].
  cbn zeta in *. split.
  - destruct (click_again _ M1) as [K _]. rewrite (K A1), B1. reflexivity.
  - destruct (click_again _ M2) as [_ K]. rewrite (K A2), B2. reflexivity.
Qed.

End Playhead.

Lemma stored_marker_within_half_second_witness :
  mounted at_3_7 = true
  /\ video at_3_7 = Some (time 37 10)
  /\ exists m : number,
       startTime (fst (step "abc" ClickSetStart at_3_7)) = Some m
       /\ (m <= time 37 10 + (1 # 2))%Q
       /\ (time 37 10 < m + (1 # 2))%Q.
Proof.
  pose proof (stored_marker_within_half_second "abc" at_3_7 (time 37 10)
                eq_refl eq_refl) as (m & H1 & _ & H3 & H4).
  split; [reflexivity|]. split; [reflexivity|].
  exists m. split; [exact H1|]. split; [exact H3 | exact H4].
Defined.

Lemma repeated_click_changes_nothing_witness :
  mounted at_3_7 = true
  /\ synced at_3_7
  /\ video at_3_7 = Some (time 37 10)
  /\ step "abc" ClickSetStart (fst (step "abc" ClickSetStart at_3_7)) =
     (fst (step "abc" ClickSetStart at_3_7),
      [SetStartTime (Some (Math_round (time 37 10)))]).
Proof.
  pose proof (repeated_click_changes_nothing "abc" at_3_7 (time 37 10)
                eq_refl (conj eq_refl eq_refl) eq_refl) as [H _].
  split; [reflexivity|]. split; [split; reflexivity|].
  split; [reflexivity | exact H].
Defined.

(** *** The trimmer and the playhead *)

Section Update.

Variable playbackId : string.

Lemma step_updated_state (st : State) (s e : option number) :
  mounted st = true ->
  (0 < updatedListeners st)%nat ->
  step playbackId (Updated s e) st =
  let (st2, t2) := rerender st (with_endTime e (with_startTime s st)) in
  (st2, snd (times (updatedListeners st) (onUpdated s e) st) ++ t2).
Proof.
  intros Hm Hl. unfold step, seq, handler, when. rewrite Hm.
  pose proof (times_onUpdated_state s e (updatedListeners st) st) as T.
  destruct (times (updatedListeners st) (onUpdated s e) st) as [st1 t1].
  cbn [fst snd] in *. rewrite T.
  destruct (updatedListeners st); [lia|]. reflexivity.
Qed.

(** X7.  When the trimmer reports [(s, e)], the effect seeks to the start
    marker if it changed and then to the end marker if it changed, [|| 0]
    applied to each: the playhead ends on the new end marker whenever the
    end changed, on the new start marker when only the start changed, and
    stays where it was when neither did. *)
Theorem update_moves_playhead (st : State) (s e : option number) :
  mounted st = true ->
  synced st ->
  (0 < updatedListeners st)%nat ->
  let (st', t) := step playbackId (Updated s e) st in
  video st' = playhead_after_update st s e
  /\ filter is_seek t =
       match video st with
       | None => []
       | Some _ =>
           (if strict_neq s (startTime st) then [Seek (or_zero s)] else [])
           ++ (if strict_neq e (endTime st) then [Seek (or_zero e)] else [])
       end.
Proof.
  intros Hm [Hs He] Hl.
  rewrite step_updated_state by assumption.
  pose proof (no_seek_filter _ (times_onUpdated_no_seek s e (updatedListeners st) st)) as N.
  set (t1 := snd (times (updatedListeners st) (onUpdated s e) st)) in *.
  set (st1 := with_endTime e (with_startTime s st)).
  assert (SH : same_hooks st st1 =
               strict_eq (startTime st) s && strict_eq (endTime st) e).
  { apply eq_true_iff_eq. rewrite same_hooks_iff, andb_true_iff, !strict_eq_iff.
    unfold st1. simpl. intuition. }
  unfold rerender, playhead_after_update.
  change (mounted st1) with (mounted st). rewrite Hm, SH. cbn [andb].
  unfold seq, emit, when, Object_is.
  change (startTime st1) with s. change (endTime st1) with e.
  change (duration st1) with (duration st). rewrite (strict_eq_refl (duration st)).
  cbn [negb].
  unfold strict_neq. rewrite (strict_eq_sym s), (strict_eq_sym e).
  destruct (strict_eq (startTime st) s) eqn:E1;
    destruct (strict_eq (endTime st) e) eqn:E2; cbn [andb negb].
  - cbn [fst snd]. rewrite app_nil_r, N. change (video st1) with (video st).
    destruct (video st); auto.
  - unfold timesEffect, seq, when, seekTo, emit.
    change (startTime st1) with s. change (prevStartTime st1) with (prevStartTime st).
    rewrite Hs. unfold strict_neq. rewrite (strict_eq_sym s), E1. cbn [negb].
    change (endTime st1) with e. change (prevEndTime st1) with (prevEndTime st).
    rewrite He, (strict_eq_sym e), E2. cbn [negb].
    change (video st1) with (video st).
    destruct (video st) eqn:Ev; cbn -[or_zero];
      rewrite filter_app, N; cbn -[or_zero]; auto.
  - unfold timesEffect, seq, when, seekTo, emit.
    change (startTime st1) with s. change (prevStartTime st1) with (prevStartTime st).
    rewrite Hs. unfold strict_neq. rewrite (strict_eq_sym s), E1. cbn [negb].
    change (video st1) with (video st).
    destruct (video st) eqn:Ev; cbn -[or_zero strict_eq];
      rewrite He, (strict_eq_sym e), E2; cbn -[or_zero];
      rewrite filter_app, N; cbn -[or_zero]; auto.
  - unfold timesEffect, seq, when, seekTo, emit.
    change (startTime st1) with s. change (prevStartTime st1) with (prevStartTime st).
    rewrite Hs. unfold strict_neq. rewrite (strict_eq_sym s), E1. cbn [negb].
    change (video st1) with (video st).
    destruct (video st) eqn:Ev; cbn -[or_zero strict_eq];
      rewrite He, (strict_eq_sym e), E2; cbn -[or_zero];
      rewrite ?Ev; cbn -[or_zero];
      rewrite filter_app, N; cbn -[or_zero]; auto.
Qed.

End Update.

(** The trimmer moves both markers of a clipper playing at 3.7 seconds. *)
Lemma update_moves_playhead_witness :
  mounted at_3_7 = true
  /\ synced at_3_7
  /\ (0 < updatedListeners at_3_7)%nat
  /\ video (fst (step "abc" (Updated (Some (time 16 5)) (Some (time 97 10)))
                   at_3_7)) = Some (time 97 10).
Proof.
  assert (Hl : (0 < updatedListeners at_3_7)%nat) by (vm_compute; lia).
  pose proof (update_moves_playhead "abc" at_3_7
                (Some (time 16 5)) (Some (time 97 10))
                eq_refl (conj eq_refl eq_refl) Hl) as H.
  destruct (step "abc" (Updated (Some (time 16 5)) (Some (time 97 10))) at_3_7)
    as [st' t].
  destruct H as [H _].
  split; [reflexivity|]. split; [split; reflexivity|]. split; [exact Hl|].
  cbn [fst]. rewrite H. reflexivity.
Defined.

(** *** What leaves the playhead alone *)

Section Quiet.

Variables (playbackId poster : string).

Lemma handler_markers (ev : event) (st : State) :
  writes_marker ev = false ->
  startTime (fst (handler playbackId ev st)) = startTime st
  /\ endTime (fst (handler playbackId ev st)) = endTime st
  /\ (touches_video ev = false ->
      video (fst (handler playbackId ev st)) = video st).
Proof.
  destruct ev; cbn [writes_marker touches_video]; try discriminate; intros _;
    unfold handler, when.
  - destruct (mounted st && negb (isCreatingClip st)); simpl; auto.
  - unfold onImageLoad. destruct (truthy w && truthy h); simpl; auto.
  - destruct (metadataListener st); [|simpl; auto].
    unfold loadedMetadata. destruct (video st) eqn:Ev; [|simpl; auto].
    destruct (truthy d); simpl; auto.
  - destruct (errorListener st); simpl; auto.
  - destruct (hls st); [|simpl; auto]. destruct fatal; simpl; auto.
  - destruct (video st); simpl; repeat split; auto; discriminate.
  - destruct (pending st); [simpl; auto|].
    rewrite settle_resolved. destruct (resolved r); simpl; auto.
  - destruct (mounted st); simpl; repeat split; auto; discriminate.
Qed.

(** A render that changes no marker runs no seek. *)
Lemma rerender_markers_same (before st : State) :
  startTime before = startTime st ->
  endTime before = endTime st ->
  no_seek (snd (rerender before st)) = true
  /\ video (fst (rerender before st)) = video st.
Proof.
  intros H1 H2. unfold rerender, seq, emit, when, Object_is.
  rewrite H1, H2, !strict_eq_refl. cbn [andb negb].
  destruct (mounted st && negb (same_hooks before st)); [|auto].
  destruct (negb (strict_eq (duration before) (duration st))); [|auto].
  unfold listenEffect. destruct (trimmer st); auto.
Qed.

(** X8.  Only a click on a marker button or an update from the trimmer is
    followed by a seek.  Every other event (creating a clip, a settled
    request, a loaded poster or metadata, an error, unmounting) assigns
    [currentTime] nowhere, and, playback and unmounting apart, leaves the
    video element and its playhead as they were. *)
Theorem playhead_left_alone (ev : event) (st : State) :
  writes_marker ev = false ->
  filter is_seek (snd (step playbackId ev st)) = []
  /\ (touches_video ev = false -> video (fst (step playbackId ev st)) = video st).
Proof.
  intros Hw.
  pose proof (handler_markers ev st Hw) as (M1 & M2 & M3).
  pose proof (handler_no_seek playbackId ev st) as N.
  unfold step, seq.
  destruct (handler playbackId ev st) as [st1 t1]. cbn [fst snd] in *.
  pose proof (rerender_markers_same st st1 (eq_sym M1) (eq_sym M2)) as [R1 R2].
  destruct (rerender st st1) as [st2 t2]. cbn [fst snd] in *.
  split.
  - rewrite filter_app, (no_seek_filter _ N), (no_seek_filter _ R1). reflexivity.
  - intros Ht. rewrite R2. now apply M3.
Qed.

End Quiet.

(** A request settling while the video plays at 3.7 seconds. *)
Lemma playhead_left_alone_witness :
  writes_marker (Settled http_500) = false
  /\ filter is_seek (snd (step "abc" (Settled http_500) (creating at_3_7))) = []
  /\ video (fst (step "abc" (Settled http_500) (creating at_3_7)))
     = Some (time 37 10).
Proof.
  pose proof (playhead_left_alone "abc" (Settled http_500) (creating at_3_7)
                eq_refl) as [H1 H2].
  split; [reflexivity|]. split; [exact H1|].
  rewrite (H2 eq_refl). reflexivity.
Defined.

(** *** After unmount *)

Lemma run_app_fst (playbackId : string) (evs1 evs2 : list event) :
  forall st,
    fst (run playbackId (evs1 ++ evs2) st) =
    fst (run playbackId evs2 (fst (run playbackId evs1 st))).
Proof.
  induction evs1 as [|ev evs1 IH]; intros st; [reflexivity|].
  cbn [app]. rewrite !run_cons_fst. apply IH.
Qed.

Section Silence.

Variables (playbackId poster : string).

(** Only unmounting changes the mount flag, the 'error' listener, the
    [Hls] instance or the presence of the video element. *)
Lemma handler_fields (ev : event) (st : State) :
  ev <> Unmount ->
  mounted (fst (handler playbackId ev st)) = mounted st
  /\ errorListener (fst (handler playbackId ev st)) = errorListener st
  /\ hls (fst (handler playbackId ev st)) = hls st
  /\ (video (fst (handler playbackId ev st)) = None <-> video st = None).
Proof.
  intros Hu.
  destruct ev; try congruence; unfold handler, when.
  - destruct (mounted st) eqn:Hm; simpl; rewrite ?Hm; tauto.
  - destruct (mounted st) eqn:Hm; simpl; rewrite ?Hm; tauto.
  - destruct (mounted st && negb (isCreatingClip st)); simpl; tauto.
  - destruct (mounted st) eqn:Hm; [|simpl; rewrite ?Hm; tauto].
    rewrite times_onUpdated_state.
    destruct (updatedListeners st); simpl; rewrite ?Hm; tauto.
  - unfold onImageLoad. destruct (truthy w && truthy h); simpl; tauto.
  - destruct (metadataListener st); [|simpl; tauto].
    unfold loadedMetadata. destruct (video st) eqn:Ev; [|simpl; rewrite ?Ev; tauto].
    destruct (truthy d); simpl; rewrite ?Ev; tauto.
  - destruct (errorListener st) eqn:El; simpl; rewrite ?El; tauto.
  - destruct (hls st) eqn:Eh; [|simpl; rewrite ?Eh; tauto].
    destruct fatal; simpl; rewrite ?Eh; tauto.
  - destruct (video st) eqn:Ev; simpl; rewrite ?Ev; repeat split; auto;
      discriminate.
  - destruct (pending st); [simpl; tauto|].
    rewrite settle_resolved. destruct (resolved r); simpl; tauto.
Qed.

Lemma handler_wiring (ev : event) (st : State) :
  alive_or_silenced st ->
  alive_or_silenced (fst (handler playbackId ev st))
  /\ (ev = Unmount -> silenced (fst (handler playbackId ev st))).
Proof.
  unfold alive_or_silenced, wired, silenced. intros [W A].
  assert (D : ev = Unmount \/ ev <> Unmount)
    by (destruct ev; auto; right; discriminate).
  destruct D as [D|D].
  - subst ev. unfold handler, when.
    destruct (mounted st) eqn:Hm.
    + assert (S : errorListener (fst (unmount st)) = false).
      { unfold unmount, attachCleanup. simpl.
        destruct (video st) eqn:Ev; [reflexivity|].
        destruct (errorListener st) eqn:El; [|reflexivity].
        exfalso. now apply W. }
      assert (K : mounted (fst (unmount st)) = false
                  /\ hls (fst (unmount st)) = false) by (split; reflexivity).
      destruct K as [K1 K2].
      split; [split|]; auto.
      intros H. congruence.
    + destruct A as [A|A]; [congruence|].
      destruct A as (_ & A2 & A3). cbn [fst].
      split; [split|]; auto.
  - destruct (handler_fields ev st D) as (F1 & F2 & F3 & F4).
    rewrite F1, F2, F3. split; [split; [|exact A]|contradiction].
    intros El Ev. apply F4 in Ev. now apply W.
Qed.

Lemma step_wiring (ev : event) (st : State) :
  alive_or_silenced st ->
  alive_or_silenced (fst (step playbackId ev st))
  /\ (ev = Unmount -> silenced (fst (step playbackId ev st))).
Proof.
  intros H. apply (handler_wiring ev) in H.
  unfold step, seq. destruct (handler playbackId ev st) as [st1 t1].
  cbn [fst] in H.
  pose proof (rerender_keeps st st1) as (_ & _ & _ & _ & _ & K1 & K2).
  pose proof (rerender_frame st st1) as (_ & _ & _ & K3 & _ & K4 & _).
  destruct (rerender st st1) as [st2 t2]. cbn [fst] in *.
  unfold alive_or_silenced, wired, silenced in *.
  rewrite K1, K3, K4.
  destruct H as [[W A] U]. split; [split|]; auto.
  intros El Ev. apply K2 in Ev. now apply W.
Qed.

Lemma run_wiring (evs : list event) :
  forall st, alive_or_silenced st ->
             alive_or_silenced (fst (run playbackId evs st)).
Proof.
  induction evs as [|ev evs IH]; intros st H; [exact H|].
  rewrite run_cons_fst. apply IH. now apply step_wiring.
Qed.

(** Nothing mounts the component again. *)
Lemma step_stays_unmounted (ev : event) (st : State) :
  mounted st = false -> mounted (fst (step playbackId ev st)) = false.
Proof.
  intros Hm.
  assert (H : mounted (fst (handler playbackId ev st)) = false).
  { assert (D : ev = Unmount \/ ev <> Unmount)
      by (destruct ev; auto; right; discriminate).
    destruct D as [D|D].
    - subst ev. unfold handler, when. rewrite Hm. exact Hm.
    - destruct (handler_fields ev st D) as (F1 & _). now rewrite F1. }
  unfold step, seq.
  destruct (handler playbackId ev st) as [st1 t1]. cbn [fst] in H.
  rewrite rerender_unmounted by exact H. exact H.
Qed.

Lemma step_silenced (ev : event) (st : State) :
  wired st -> silenced st ->
  wired (fst (step playbackId ev st)) /\ silenced (fst (step playbackId ev st)).
Proof.
  intros W S.
  destruct (step_wiring ev st (conj W (or_intror S))) as [[W1 A1] _].
  split; [exact W1|].
  destruct A1 as [A1|A1]; [|exact A1].
  destruct S as (S1 & _).
  pose proof (step_stays_unmounted ev st S1). congruence.
Qed.

Lemma run_silenced (evs : list event) :
  forall st, wired st -> silenced st -> silenced (fst (run playbackId evs st)).
Proof.
  induction evs as [|ev evs IH]; intros st W S; [exact S|].
  rewrite run_cons_fst.
  destruct (step_silenced ev st W S) as [W1 S1]. now apply IH.
Qed.

(** With no 'error' listener and no [Hls] instance left, no event reaches
    [onError]. *)
Lemma silenced_step_no_error (ev : event) (st : State) :
  silenced st -> filter is_on_error (snd (step playbackId ev st)) = [].
Proof.
  intros (S1 & S2 & S3).
  rewrite step_filter by (intros b s a Ha; now apply rerender_trace_inert in Ha).
  destruct ev; unfold handler, when; rewrite ?S1, ?S2, ?S3; try reflexivity.
  - unfold onImageLoad. destruct (truthy w && truthy h); reflexivity.
  - destruct (metadataListener st); [|reflexivity].
    unfold loadedMetadata. destruct (video st); [|reflexivity].
    destruct (truthy d); reflexivity.
  - destruct (video st); reflexivity.
  - destruct (pending st); [reflexivity|].
    rewrite settle_resolved. destruct (resolved r); reflexivity.
Qed.

Lemma silenced_run_no_error (evs : list event) :
  forall st, wired st -> silenced st ->
             filter is_on_error (snd (run playbackId evs st)) = [].
Proof.
  induction evs as [|ev evs IH]; intros st W S; [reflexivity|].
  rewrite run_cons_snd, filter_app, (silenced_step_no_error ev st S).
  destruct (step_silenced ev st W S) as [W1 S1]. now apply IH.
Qed.

(** Every load event of the probe image calls [onLoaded] once, in any
    state. *)
Lemma image_load_calls_onLoaded (st : State) (w h : number) :
  filter is_on_loaded (snd (step playbackId (ImageLoad w h) st)) = [OnLoaded].
Proof.
  rewrite step_filter by (intros b s a Ha; now apply rerender_trace_inert in Ha).
  unfold handler, onImageLoad. destruct (truthy w && truthy h); reflexivity.
Qed.

(** X9.  Once the clipper is unmounted, whatever happened before and
    whatever happens after, [onError] is never called again: the 'error'
    listener is off the video and the [Hls] instance is destroyed.  The
    probe image is not covered by the cleanup: a poster that loads after
    unmount still calls [onLoaded]. *)
Theorem no_error_after_unmount (br : browser) (hasVideo hasTrimmer : bool)
    (before after : list event) :
  let st := fst (run playbackId (before ++ [Unmount])
                   (fst (mount playbackId poster br
                           (initial hasVideo hasTrimmer)))) in
  mounted st = false
  /\ filter is_on_error (snd (run playbackId after st)) = []
  /\ (forall w h,
         filter is_on_loaded
           (snd (step playbackId (ImageLoad w h)
                   (fst (run playbackId after st)))) = [OnLoaded]).
Proof.
  intros st.
  assert (I0 : alive_or_silenced
                 (fst (mount playbackId poster br (initial hasVideo hasTrimmer)))).
  { unfold alive_or_silenced, wired.
    destruct br, hasVideo, hasTrimmer; simpl; split; auto; discriminate. }
  assert (S : wired st /\ silenced st).
  { unfold st. rewrite run_app_fst.
    apply (run_wiring before) in I0.
    set (st1 := fst (run playbackId before _)) in *.
    rewrite run_cons_fst, run_nil_fst.
    destruct (step_wiring Unmount st1 I0) as [[W _] U]. split; auto. }
  destruct S as [W S].
  split; [apply S|]. split.
  - now apply silenced_run_no_error.
  - intros w h. apply image_load_calls_onLoaded.
Qed.

End Silence.

(** *** The trimmer's listeners *)

Section Listeners.

Variable playbackId : string.

Lemma handler_listeners (ev : event) (st : State) :
  updatedListeners (fst (handler playbackId ev st)) = updatedListeners st.
Proof.
  destruct ev; unfold handler, when.
  - destruct (mounted st); reflexivity.
  - destruct (mounted st); reflexivity.
  - destruct (mounted st && negb (isCreatingClip st)); reflexivity.
  - destruct (mounted st); [|reflexivity].
    rewrite times_onUpdated_state.
    destruct (updatedListeners st) eqn:En; exact En.
  - unfold onImageLoad. destruct (truthy w && truthy h); reflexivity.
  - destruct (metadataListener st); [|reflexivity].
    unfold loadedMetadata. destruct (video st); [|reflexivity].
    destruct (truthy d); reflexivity.
  - destruct (errorListener st); reflexivity.
  - destruct (hls st); [|reflexivity]. destruct fatal; reflexivity.
  - destruct (video st); reflexivity.
  - destruct (pending st); [reflexivity|].
    rewrite settle_resolved. destruct (resolved r); reflexivity.
  - destruct (mounted st); reflexivity.
Qed.

Lemma step_listeners (ev : event) (st : State) :
  (updatedListeners st <= updatedListeners (fst (step playbackId ev st)))%nat.
Proof.
  pose proof (handler_listeners ev st) as H.
  unfold step, seq. destruct (handler playbackId ev st) as [st1 t1].
  cbn [fst] in H.
  pose proof (rerender_frame st st1) as (_ & _ & _ & _ & _ & _ & K).
  destruct (rerender st st1) as [st2 t2]. cbn [fst] in *. lia.
Qed.

Lemma run_listeners (evs : list event) :
  forall st,
    (updatedListeners st <= updatedListeners (fst (run playbackId evs st)))%nat.
Proof.
  induction evs as [|ev evs IH]; intros st; [simpl; lia|].
  rewrite run_cons_fst.
  pose proof (step_listeners ev st).
  pose proof (IH (fst (step playbackId ev st))). lia.
Qed.

(** X10.  Each 'loadedmetadata' event that reports a duration other than
    the one held (and not zero) makes the listener effect run again, and
    the effect adds one more 'updated' listener to the trimmer without
    removing the one before; no event, unmounting included, ever takes a
    listener away, so their number only grows along a run. *)
Theorem updated_listeners_pile_up (st : State) (d : number) :
  mounted st = true ->
  metadataListener st = true ->
  video st <> None ->
  trimmer st = true ->
  truthy d = true ->
  duration st <> Some d ->
  step playbackId (LoadedMetadata d) st =
    (with_updatedListeners (S (updatedListeners st)) (with_duration (Some d) st),
     [SetDuration d; Render (startTime st) (endTime st);
      AddListener "media-trimmer" "updated"])
  /\ (forall evs st0,
         (updatedListeners st0
          <= updatedListeners (fst (run playbackId evs st0)))%nat).
Proof.
  intros Hm Hl Hv Ht Hd Hn. split; [|intros evs st0; apply run_listeners].
  unfold step, seq, handler, when, loadedMetadata. rewrite Hl.
  destruct (video st) eqn:Ev; [clear Hv | congruence].
  rewrite Hd. unfold setDuration.
  unfold rerender. change (mounted (with_duration (Some d) st)) with (mounted st).
  rewrite Hm.
  assert (E : same_hooks st (with_duration (Some d) st) = false).
  { apply not_true_iff_false. intros H. apply same_hooks_iff in H.
    simpl in H. intuition. }
  rewrite E. cbn [andb negb].
  unfold seq, emit, when, Object_is.
  cbn [startTime endTime duration with_duration].
  rewrite !strict_eq_refl. cbn [andb negb].
  assert (E1 : strict_eq (duration st) (Some d) = false).
  { apply not_true_iff_false. rewrite strict_eq_iff. exact Hn. }
  rewrite E1. cbn [negb]. unfold listenEffect.
  cbn [trimmer with_duration]. rewrite Ht. reflexivity.
Qed.

End Listeners.

(** Metadata with a duration of 30 seconds reaches a fresh clipper. *)
Lemma updated_listeners_pile_up_witness :
  mounted mounted0 = true
  /\ metadataListener mounted0 = true
  /\ video mounted0 <> None
  /\ trimmer mounted0 = true
  /\ truthy (time 30 1) = true
  /\ duration mounted0 <> Some (time 30 1)
  /\ updatedListeners mounted0 = 1%nat
  /\ updatedListeners (fst (step "abc" (LoadedMetadata (time 30 1)) mounted0))
     = 2%nat.
Proof.
  assert (Hv : video mounted0 <> None) by discriminate.
  assert (Hn : duration mounted0 <> Some (time 30 1)) by discriminate.
  pose proof (updated_listeners_pile_up "abc" mounted0 (time 30 1)
                eq_refl eq_refl Hv eq_refl eq_refl Hn) as [H _].
  repeat (split; [first [reflexivity | assumption]|]).
  rewrite H. reflexivity.
Defined.

(** *** The poster probe, when it succeeds *)


Section Probe.

Variable playbackId : string.


End Probe.


End ClipperRunsFacts.

(** ** The playback page *)

Module PlaybackPageFacts.

Import Js PlaybackPage.
Local Open Scope list_scope.

(** *** The copy timer *)

Section Copy.

Variable shareUrl : string.

Lemma page_run_cons_fst (ev : event) (evs : list event) (st : State) :
  fst (run shareUrl (ev :: evs) st) =
  fst (run shareUrl evs (fst (step shareUrl ev st))).
Proof.
  cbn [run]. destruct (step shareUrl ev st) as [st1 t1]. cbn [fst].
  destruct (run shareUrl evs st1) as [st2 t2]. reflexivity.
Qed.

Lemma page_run_cons_snd (ev : event) (evs : list event) (st : State) :
  snd (run shareUrl (ev :: evs) st) =
  snd (step shareUrl ev st) ++ snd (run shareUrl evs (fst (step shareUrl ev st))).
Proof.
  cbn [run]. destruct (step shareUrl ev st) as [st1 t1]. cbn [fst snd].
  destruct (run shareUrl evs st1) as [st2 t2]. reflexivity.
Qed.

Lemma page_run_app_fst (evs1 evs2 : list event) :
  forall st,
    fst (run shareUrl (evs1 ++ evs2) st) =
    fst (run shareUrl evs2 (fst (run shareUrl evs1 st))).
Proof.
  induction evs1 as [|ev evs1 IH]; intros st; [reflexivity|].
  cbn [app]. rewrite !page_run_cons_fst. apply IH.
Qed.

Lemma step_tidy (ev : event) (st : State) :
  tidy st ->
  (ev = ClickCopy -> timers st = []) ->
  tidy (fst (step shareUrl ev st)).
Proof.
  unfold tidy. intros [Hn H] Hc.
  destruct ev; unfold step.
  - simpl. auto.
  - simpl. auto.
  - specialize (Hc eq_refl).
    destruct (mounted st && negb (openReport st)) eqn:E; [|simpl; auto].
    apply andb_true_iff in E as [Em _].
    simpl. rewrite Hc. split; [lia|]. right.
    exists (nextTimer st). simpl. auto.
  - destruct (timers st) as [|x rest] eqn:Et; [simpl; rewrite Et; auto|].
    simpl. split; [exact Hn|]. left.
    destruct H as [H|(id & _ & H & _)]; [discriminate|]. now inversion H.
  - destruct (mounted st && negb (openReport st)); simpl; auto.
  - destruct (mounted st && openReport st); simpl; auto.
  - destruct (mounted st) eqn:Em; [|simpl; rewrite ?Em; auto].
    unfold unmount, cleanup.
    destruct H as [H|(id & Hid & H & Hr & _)].
    + destruct (copyTimeoutRef st) as [id|]; [|simpl; auto].
      destruct (Nat.eqb id 0); simpl; rewrite ?H; auto.
    + rewrite Hr. destruct (Nat.eqb id 0) eqn:E0.
      * apply Nat.eqb_eq in E0. lia.
      * simpl. rewrite H. unfold clearTimeout. simpl.
        rewrite Nat.eqb_refl. simpl. auto.
Qed.

Lemma run_tidy (evs : list event) :
  forall st, tidy st -> spaced shareUrl evs st = true ->
             tidy (fst (run shareUrl evs st)).
Proof.
  induction evs as [|ev evs IH]; intros st T S; [exact T|].
  rewrite page_run_cons_fst. cbn [spaced] in S.
  apply andb_true_iff in S as [S1 S2].
  apply IH; [|exact S2].
  apply step_tidy; [exact T|].
  intros ->. destruct (timers st); [reflexivity | discriminate].
Qed.

(** With the page unmounted and no timeout pending, nothing calls
    [setIsCopied] any more. *)
Lemma quiet_step (ev : event) (st : State) :
  mounted st = false -> timers st = [] ->
  mounted (fst (step shareUrl ev st)) = false
  /\ timers (fst (step shareUrl ev st)) = []
  /\ filter is_set_copied (snd (step shareUrl ev st)) = [].
Proof.
  intros Hm Ht. destruct ev; unfold step; rewrite ?Hm, ?Ht; simpl; auto.
Qed.

Lemma quiet_run (evs : list event) :
  forall st, mounted st = false -> timers st = [] ->
             filter is_set_copied (snd (run shareUrl evs st)) = [].
Proof.
  induction evs as [|ev evs IH]; intros st Hm Ht; [reflexivity|].
  destruct (quiet_step ev st Hm Ht) as (M & T & F).
  rewrite page_run_cons_snd, filter_app, F. now apply IH.
Qed.

(** X13.  If no copy is made while the timeout of an earlier copy is still
    pending, unmounting the page leaves no timeout behind: the cleanup
    clears the one the ref holds, and whatever happens afterwards
    [setIsCopied] is not called again. *)
Theorem spaced_copies_leave_no_timer (evs after : list event) :
  spaced shareUrl evs initial = true ->
  let st := fst (run shareUrl (evs ++ [Unmount]) initial) in
  mounted st = false
  /\ timers st = []
  /\ filter is_set_copied (snd (run shareUrl after st)) = [].
Proof.
  intros S st.
  assert (T0 : tidy initial) by (split; [simpl; lia | left; reflexivity]).
  pose proof (run_tidy evs initial T0 S) as T.
  assert (U : mounted st = false /\ timers st = []).
  { unfold st. rewrite page_run_app_fst, page_run_cons_fst.
    set (st1 := fst (run shareUrl evs initial)) in *.
    cbn [run fst].
    destruct T as [Hn H]. unfold step.
    destruct (mounted st1) eqn:Em.
    - unfold unmount, cleanup.
      destruct H as [H|(id & Hid & H & Hr & _)].
      + destruct (copyTimeoutRef st1) as [id|]; [|simpl; auto].
        destruct (Nat.eqb id 0); simpl; rewrite ?H; auto.
      + rewrite Hr. destruct (Nat.eqb id 0) eqn:E0.
        * apply Nat.eqb_eq in E0. lia.
        * simpl. rewrite H. unfold clearTimeout. simpl.
          rewrite Nat.eqb_refl. auto.
    - simpl. split; [exact Em|].
      destruct H as [H|(id & _ & _ & _ & H)]; [exact H | congruence]. }
  destruct U as [U1 U2]. split; [exact U1|]. split; [exact U2|].
  now apply quiet_run.
Qed.

(** X14.  Two copies made within the delay leave a timeout that
    unmounting does not clear: when the first expires it resets the label
    and sets the ref to [null], although the second is still pending; the
    cleanup then finds nothing to clear, and the second timeout expires
    after unmount and calls [setIsCopied(false)]. *)
Theorem overlapping_copies_leave_a_timer (st : State) :
  mounted st = true ->
  openReport st = false ->
  timers st = [] ->
  let st3 := fst (run shareUrl [ClickCopy; ClickCopy; Timeout] st) in
  let (st4, t4) := step shareUrl Unmount st3 in
  isCopied st3 = false
  /\ copyTimeoutRef st3 = None
  /\ timers st3 = [S (nextTimer st)]
  /\ t4 = []
  /\ timers st4 = [S (nextTimer st)]
  /\ snd (step shareUrl Timeout st4) = [SetIsCopied false].
Proof.
  intros Hm Ho Ht. destruct st as [m l em c o r ts n].
  simpl in Hm, Ho, Ht. subst m o ts. cbn. repeat split; reflexivity.
Qed.

(** While the page is mounted and shows "Copied to clipboard", a timeout
    that will reset the label is pending. *)
Lemma step_label (ev : event) (st : State) :
  (mounted st = true -> isCopied st = true -> timers st <> []) ->
  let st' := fst (step shareUrl ev st) in
  mounted st' = true -> isCopied st' = true -> timers st' <> [].
Proof.
  intros H. destruct ev; unfold step; cbn zeta.
  - simpl. exact H.
  - simpl. exact H.
  - destruct (mounted st && negb (openReport st)); [|exact H].
    simpl. intros _ _ E. now apply app_eq_nil in E as [_ E].
  - destruct (timers st) eqn:Et; [simpl; rewrite Et; exact H|].
    simpl. discriminate.
  - destruct (mounted st && negb (openReport st)); simpl; exact H.
  - destruct (mounted st && openReport st); simpl; exact H.
  - destruct (mounted st) eqn:Em; [|simpl; rewrite Em; discriminate].
    unfold unmount. destruct (cleanup st). simpl. discriminate.
Qed.

(** X15.  In every state the page reaches, mounted and showing the
    "Copied to clipboard" label means a timeout is pending: the label
    never stays for good. *)
Theorem copied_label_has_a_timer (evs : list event) :
  let st := fst (run shareUrl evs initial) in
  mounted st = true -> isCopied st = true -> timers st <> [].
Proof.
  assert (G : forall evs st,
             (mounted st = true -> isCopied st = true -> timers st <> []) ->
             mounted (fst (run shareUrl evs st)) = true ->
             isCopied (fst (run shareUrl evs st)) = true ->
             timers (fst (run shareUrl evs st)) <> []).
  { clear evs. induction evs as [|ev evs IH]; intros st H; [exact H|].
    rewrite page_run_cons_fst. apply IH. apply step_label, H. }
  cbn zeta. apply G. simpl. discriminate.
Qed.

(** *** Errors *)



End Copy.

(** Right after a copy the label shows and its timeout is pending. *)
Lemma copied_label_has_a_timer_witness :
  mounted (fst (run "https://stream.new/v/abc" [ClickCopy] initial)) = true
  /\ isCopied (fst (run "https://stream.new/v/abc" [ClickCopy] initial)) = true
  /\ timers (fst (run "https://stream.new/v/abc" [ClickCopy] initial)) <> [].
Proof.
  split; [reflexivity|]. split; [reflexivity|].
  exact (copied_label_has_a_timer "https://stream.new/v/abc" [ClickCopy]
           eq_refl eq_refl).
Defined.

(** Copy, let the label expire, copy again, then leave. *)
Lemma spaced_copies_leave_no_timer_witness :
  spaced "https://stream.new/v/abc" [ClickCopy; Timeout; ClickCopy] initial = true
  /\ timers (fst (run "https://stream.new/v/abc"
                    ([ClickCopy; Timeout; ClickCopy] ++ [Unmount]) initial)) = []
  /\ filter is_set_copied
       (snd (run "https://stream.new/v/abc" [Timeout; PlayerLoaded]
               (fst (run "https://stream.new/v/abc"
                       ([ClickCopy; Timeout; ClickCopy] ++ [Unmount]) initial))))
     = [].
Proof.
  pose proof (spaced_copies_leave_no_timer "https://stream.new/v/abc"
                [ClickCopy; Timeout; ClickCopy] [Timeout; PlayerLoaded] eq_refl)
    as (_ & H2 & H3).
  split; [reflexivity|]. split; [exact H2 | exact H3].
Defined.

Lemma overlapping_copies_leave_a_timer_witness :
  mounted initial = true
  /\ openReport initial = false
  /\ timers initial = []
  /\ timers (fst (run "https://stream.new/v/abc"
                    [ClickCopy; ClickCopy; Timeout; Unmount] initial)) = [2%nat].
Proof.
  pose proof (overlapping_copies_leave_a_timer "https://stream.new/v/abc" initial
                eq_refl eq_refl eq_refl) as H.
  cbn zeta in H.
  destruct (step "https://stream.new/v/abc" Unmount
              (fst (run "https://stream.new/v/abc"
                      [ClickCopy; ClickCopy; Timeout] initial))) as [st4 t4] eqn:E.
  destruct H as (_ & _ & _ & _ & H & _).
  split; [reflexivity|]. split; [reflexivity|]. split; [reflexivity|].
  change (fst (run "https://stream.new/v/abc"
                 [ClickCopy; ClickCopy; Timeout; Unmount] initial))
    with (fst (step "https://stream.new/v/abc" Unmount
                 (fst (run "https://stream.new/v/abc"
                         [ClickCopy; ClickCopy; Timeout] initial)))).
  rewrite E. exact H.
Defined.

End PlaybackPageFacts.
